(** * IFC fragment converter: a shallow embedding of the two Express servers

    The repository holds two versions of the same HTTP service:
    - [src/server.js] (module [Server] below): keys are the SHA-256 hex digest
      of the requested filename; Convert takes a multipart IFC upload;
    - [src/unnamed/part_000] (module [Part000] below): keys are the filename
      itself; Convert takes a JSON body [{filename, ifcUrl}] and downloads the
      IFC model.

    Both handlers are [async] functions whose whole body sits in one
    [try { ... } catch]. They are modelled in a state and error monad [M]:
    the state is the fragments directory on disk plus a trace of the calls
    made to the outside world (file system, [fetch], the IFC engine); the
    answers of the outside world (which calls fail, what the engine returns)
    are a read-only environment [env] that the theorems quantify over. *)

From stdpp Require Import base gmap strings list.
From Stdlib Require Import ZArith Ascii.

Open Scope Z_scope.

Abbreviation bytes := (list Byte.byte).

(** ** Observable calls to the outside world *)

Inductive event : Type :=
| EvStat (p : string)          (** [fs.stat(p)] *)
| EvMkdir                      (** [fs.mkdir(FRAGMENTS_DIR, {recursive: true})] *)
| EvWrite (p : string)         (** [fs.writeFile(p, ...)] *)
| EvFetch (url : string)       (** [fetch(url)] *)
| EvInit                       (** [initIfcLoader()]: [new OBC.Components()] *)
| EvLoad                       (** [fragmentIfcLoader.load(buffer)] *)
| EvExport                     (** [fragments.export(model)] *)
| EvProps                      (** [model.getLocalProperties()] *)
| EvDisposeFragments           (** [fragments.dispose()] *)
| EvDisposeComponents.         (** [components.dispose()] *)

#[global] Instance event_eq_dec : EqDecision event.
Proof. solve_decision. Defined.

(** The fragments directory [FRAGMENTS_DIR]: [disk] maps a file name inside
    the directory to its contents ([path.join(FRAGMENTS_DIR, name)] is
    represented by [name]); [dir_exists] records whether the directory
    itself exists; [trace] lists the calls made, most recent first. *)
Record world : Type := mkWorld {
  disk : gmap string bytes;
  dir_exists : bool;
  trace : list event
}.

(** The answer of [fetch(url)]: a rejected promise (network error), or a
    response with [response.ok], [response.statusText] and the body. *)
Inductive fetch_outcome : Type :=
| FetchNetworkError (message : string)
| FetchResponse (ok : bool) (statusText : string) (body : bytes).

(** Handles of the objects the IFC engine hands back. *)
Definition model_handle := nat.
Definition properties_handle := nat.

(** How the outside world answers: [Some message] / [inl message] is a call
    that throws (or rejects) with an [Error] of that message. *)
Record env : Type := mkEnv {
  env_mkdir_error : option string;
  env_write_error : string -> option string;
  env_fetch : string -> fetch_outcome;
  env_init_error : option string;
  env_load : bytes -> string + model_handle;
  env_export : model_handle -> string + bytes;
  env_properties : model_handle -> string + properties_handle;
  env_stringify : properties_handle -> string + bytes
}.

(** ** A state and error monad *)

Definition M (A : Type) : Type := env -> world -> world * (string + A).

Definition ret {A} (a : A) : M A := fun _ w => (w, inr a).

Definition bind {A B} (m : M A) (k : A -> M B) : M B :=
  fun e w =>
    match m e w with
    | (w', inl err) => (w', inl err)
    | (w', inr a) => k a e w'
    end.

Definition throw {A} (message : string) : M A := fun _ w => (w, inl message).

(** [try { m } catch (error) { h(error.message) }] *)
Definition try_catch {A} (m : M A) (h : string -> M A) : M A :=
  fun e w =>
    match m e w with
    | (w', inl err) => h err e w'
    | (w', inr a) => (w', inr a)
    end.

(** Run [m] and keep its outcome as a value: a promise that is started and
    settled, to be inspected later (as [Promise.all] does). *)
Definition attempt {A} (m : M A) : M (string + A) :=
  fun e w => let '(w', r) := m e w in (w', inr r).

Notation "'let!' x ':=' m 'in' k" := (bind m (fun x => k))
  (at level 200, x name, m at level 100, k at level 200, only parsing).

Definition emit (ev : event) : M unit :=
  fun _ w => (mkWorld (disk w) (dir_exists w) (ev :: trace w), inr tt).

Definition ask : M env := fun e w => (w, inr e).

Definition from_sum {A} (r : string + A) : M A :=
  match r with inl m => throw m | inr a => ret a end.

(** ** File system *)

(** [fs.stat(p).catch(() => null)], read as a boolean ([!!stats]): a
    rejected [stat] is a missing file. *)
Definition stat_or_null (p : string) : M bool :=
  let! _ := emit (EvStat p) in
  fun _ w => (w, inr (bool_decide (is_Some (disk w !! p)))).

(** [fs.mkdir(FRAGMENTS_DIR, { recursive: true })]: succeeds when the
    directory already exists. *)
Definition mkdir_recursive : M unit :=
  let! _ := emit EvMkdir in
  let! e := ask in
  match env_mkdir_error e with
  | Some m => throw m
  | None => fun _ w => (mkWorld (disk w) true (trace w), inr tt)
  end.

(** [fs.writeFile(p, data)]: replaces the whole file; fails when the
    directory is missing or the environment makes the write fail. *)
Definition writeFile (p : string) (data : bytes) : M unit :=
  let! _ := emit (EvWrite p) in
  let! e := ask in
  fun _ w =>
    if negb (dir_exists w)
    then (w, inl ("ENOENT: no such file or directory, open '" ++ p ++ "'")%string)
    else match env_write_error e p with
         | Some m => (w, inl m)
         | None => (mkWorld (<[p := data]> (disk w)) true (trace w), inr tt)
         end.

(** ** The IFC engine ([@thatopen/components], [web-ifc]) *)

(** [initIfcLoader()]: a fresh [OBC.Components] and its [IfcLoader]. *)
Definition initIfcLoader : M unit :=
  let! _ := emit EvInit in
  let! e := ask in
  match env_init_error e with Some m => throw m | None => ret tt end.

Definition load (data : bytes) : M model_handle :=
  let! _ := emit EvLoad in
  let! e := ask in from_sum (env_load e data).

Definition export (model : model_handle) : M bytes :=
  let! _ := emit EvExport in
  let! e := ask in from_sum (env_export e model).

Definition getLocalProperties (model : model_handle) : M properties_handle :=
  let! _ := emit EvProps in
  let! e := ask in from_sum (env_properties e model).

(** [JSON.stringify(properties)] *)
Definition stringify (props : properties_handle) : M bytes :=
  let! e := ask in from_sum (env_stringify e props).

Definition dispose_fragments : M unit := emit EvDisposeFragments.
Definition dispose_components : M unit := emit EvDisposeComponents.

(** ** Requests and responses *)

(** [req.params.filename], [req.files] (field name to uploaded data;
    [None] when [req.files] is unset) and the JSON body fields
    [req.body.filename], [req.body.ifcUrl] ([None] when absent). *)
Record request : Type := mkRequest {
  params_filename : string;
  files : option (gmap string bytes);
  body_filename : option string;
  body_ifcUrl : option string
}.

(** [req.files?.[field]?.data] *)
Definition req_file (req : request) (field : string) : option bytes :=
  match files req with Some m => m !! field | None => None end.

(** JavaScript truthiness of a body field: [undefined] and [""] are falsy. *)
Definition truthy (o : option string) : bool :=
  match o with Some s => negb (String.eqb s "") | None => false end.

(** The JSON envelope and the HTTP status of [res.status(..).json(..)]. *)
Record response : Type := mkResponse {
  status : Z;
  success : bool;
  fragUrl : option string;
  jsonUrl : option string;
  error : option string
}.

(** [res.json({ success: true, fragUrl, jsonUrl })] *)
Definition res_urls (fu ju : string) : response :=
  mkResponse 200 true (Some fu) (Some ju) None.

(** [res.json({ success: false })] *)
Definition res_not_found : response := mkResponse 200 false None None None.

(** [res.status(code).json({ success: false, error: message })] *)
Definition res_error (code : Z) (message : string) : response :=
  mkResponse code false None None (Some message).

(** A request handler: the response it sends and the world it leaves.
    Every handler below wraps its body in [try ... catch] and so never
    throws ([Server_handlers_total], [Part000_handlers_total]); the [inl]
    case is there only to make [run] total. *)
Definition run (h : M response) (e : env) (w : world) : world * response :=
  match h e w with
  | (w', inr r) => (w', r)
  | (w', inl m) => (w', res_error 500 m)
  end.

(** Response shapes, and the file names and URLs of a key. *)
Definition frag_name (key : string) : string := (key ++ ".frag")%string.
Definition json_name (key : string) : string := (key ++ ".json")%string.
Definition frag_url (key : string) : string := ("/fragments/" ++ key ++ ".frag")%string.
Definition json_url (key : string) : string := ("/fragments/" ++ key ++ ".json")%string.

(** The Artifact Pair of [key] is on disk. *)
Definition pair_present (w : world) (key : string) : Prop :=
  is_Some (disk w !! frag_name key) /\ is_Some (disk w !! json_name key).

(** * [src/server.js] *)
Module Server.
Section WithHash.

(** [getFileHash(filename)] =
    [createHash('sha256').update(filename).digest('hex')]; the digest is
    the crypto library's, so the development holds for any function. *)
Variable getFileHash : string -> string.

(** [ensureFragmentsDir]: errors are logged and swallowed. *)
Definition ensureFragmentsDir : M unit :=
  try_catch mkdir_recursive (fun _ => ret tt).

(** [app.get('/api/fragments/:filename', ...)] *)
Definition get_fragments (req : request) : M response :=
  try_catch (
    let hash := getFileHash (params_filename req) in
    let! fragExists := stat_or_null (frag_name hash) in
    let! jsonExists := stat_or_null (json_name hash) in
    if fragExists && jsonExists
    then ret (res_urls (frag_url hash) (json_url hash))
    else ret res_not_found)
  (fun _ => ret (res_error 500 "Server error")).

(** [app.post('/api/fragments/:filename', ...)] *)
Definition post_fragments (req : request) : M response :=
  try_catch (
    let hash := getFileHash (params_filename req) in
    match req_file req "fragFile", req_file req "jsonFile" with
    | Some fragData, Some jsonData =>
        let! _ := ensureFragmentsDir in
        let! _ := writeFile (frag_name hash) fragData in
        let! _ := writeFile (json_name hash) jsonData in
        ret (res_urls (frag_url hash) (json_url hash))
    | _, _ => ret (res_error 400 "Missing files")
    end)
  (fun _ => ret (res_error 500 "Server error")).

(** [app.post('/api/convert-ifc/:filename', ...)] *)
Definition convert_ifc (req : request) : M response :=
  try_catch (
    let hash := getFileHash (params_filename req) in
    let! fragStats := stat_or_null (frag_name hash) in
    let! jsonStats := stat_or_null (json_name hash) in
    if fragStats && jsonStats
    then ret (res_urls (frag_url hash) (json_url hash))
    else
    match req_file req "ifcFile" with
    | None => ret (res_error 400 "Missing IFC file")
    | Some ifcData =>
        let! _ := initIfcLoader in
        let! model := load ifcData in
        let! fragData := export model in
        let! properties := getLocalProperties model in
        let! _ := ensureFragmentsDir in
        let! _ := writeFile (frag_name hash) fragData in
        let! propsJson := stringify properties in
        let! _ := writeFile (json_name hash) propsJson in
        let! _ := dispose_fragments in
        let! _ := dispose_components in
        ret (res_urls (frag_url hash) (json_url hash))
    end)
  (fun _ => ret (res_error 500 "Server error during IFC conversion")).

End WithHash.
End Server.

(** * [src/unnamed/part_000] *)
Module Part000.

(** [getFilePaths(filename)]: the key is the filename itself. *)
Definition getFilePaths (filename : string) : string * string * string * string :=
  (frag_name filename, json_name filename, frag_url filename, json_url filename).

(** [ensureFragmentsDir]: errors propagate. *)
Definition ensureFragmentsDir : M unit := mkdir_recursive.

(** [checkFilesExist(fragPath, jsonPath)]: two stats under [Promise.all]. *)
Definition checkFilesExist (fragPath jsonPath : string) : M (bool * bool) :=
  let! fragExists := stat_or_null fragPath in
  let! jsonExists := stat_or_null jsonPath in
  ret (fragExists, jsonExists).

(** [Promise.all([p1, p2])] over two writes that were both started: both
    run to completion; the combined promise rejects when either does (with
    the first one's error when both do). *)
Definition all2 (r1 r2 : string + unit) : M unit :=
  match r1, r2 with
  | inl m, _ => throw m
  | _, inl m => throw m
  | inr _, inr _ => ret tt
  end.

(** [fetchIfcFile(url)] *)
Definition fetchIfcFile (url : string) : M bytes :=
  let! _ := emit (EvFetch url) in
  let! e := ask in
  match env_fetch e url with
  | FetchNetworkError m => throw m
  | FetchResponse ok statusText body =>
      if negb ok then throw ("Failed to fetch IFC file: " ++ statusText)%string
      else ret body
  end.

(** [app.get('/api/fragments/:filename', ...)] *)
Definition get_fragments (req : request) : M response :=
  try_catch (
    let '(fragPath, jsonPath, fragUrl, jsonUrl) := getFilePaths (params_filename req) in
    let! found := checkFilesExist fragPath jsonPath in
    let '(fragExists, jsonExists) := found in
    if fragExists && jsonExists
    then ret (res_urls fragUrl jsonUrl)
    else ret res_not_found)
  (fun _ => ret (res_error 500 "Server error")).

(** [app.post('/api/fragments/:filename', ...)] *)
Definition post_fragments (req : request) : M response :=
  try_catch (
    match req_file req "fragFile", req_file req "jsonFile" with
    | Some fragData, Some jsonData =>
        let '(fragPath, jsonPath, fragUrl, jsonUrl) := getFilePaths (params_filename req) in
        let! _ := ensureFragmentsDir in
        let! r1 := attempt (writeFile fragPath fragData) in
        let! r2 := attempt (writeFile jsonPath jsonData) in
        let! _ := all2 r1 r2 in
        ret (res_urls fragUrl jsonUrl)
    | _, _ => ret (res_error 400 "Missing files")
    end)
  (fun _ => ret (res_error 500 "Server error")).

(** [app.post('/api/convert-ifc', ...)]: the second write's argument
    [JSON.stringify(properties)] is evaluated after the first write has
    started, so a throwing [stringify] leaves that write to complete. *)
Definition convert_ifc (req : request) : M response :=
  try_catch (
    match body_filename req, body_ifcUrl req with
    | Some filename, Some ifcUrl =>
      if negb (truthy (Some filename)) || negb (truthy (Some ifcUrl))
      then ret (res_error 400 "Missing filename or IFC URL")
      else
        let '(fragPath, jsonPath, fragUrl, jsonUrl) := getFilePaths filename in
        let! found := checkFilesExist fragPath jsonPath in
        let '(fragExists, jsonExists) := found in
        if fragExists && jsonExists
        then ret (res_urls fragUrl jsonUrl)
        else
          let! ifcData := fetchIfcFile ifcUrl in
          let! _ := initIfcLoader in
          let! model := load ifcData in
          let! fragData := export model in
          let! properties := getLocalProperties model in
          let! _ := ensureFragmentsDir in
          let! r1 := attempt (writeFile fragPath fragData) in
          let! propsJson := stringify properties in
          let! r2 := attempt (writeFile jsonPath propsJson) in
          let! _ := all2 r1 r2 in
          let! _ := dispose_fragments in
          let! _ := dispose_components in
          ret (res_urls fragUrl jsonUrl)
    | _, _ => ret (res_error 400 "Missing filename or IFC URL")
    end)
  (fun m => ret (res_error 500 ("Server error during IFC conversion: " ++ m)%string)).

End Part000.

(** * Running the handlers *)

(** One trace event appended to a world. *)
Definition log (ev : event) (w : world) : world :=
  mkWorld (disk w) (dir_exists w) (ev :: trace w).

Ltac unfold_m :=
  unfold stat_or_null, mkdir_recursive, writeFile, initIfcLoader, load, export,
    getLocalProperties, stringify, dispose_fragments, dispose_components,
    log, from_sum, try_catch, attempt, bind, ret, throw, emit, ask in *.

(** The message [fetchIfcFile] rejects with, if it does. *)
Definition fetch_failure_message (o : fetch_outcome) : option string :=
  match o with
  | FetchNetworkError m => Some m
  | FetchResponse false statusText _ => Some ("Failed to fetch IFC file: " ++ statusText)%string
  | FetchResponse true _ _ => None
  end.

(** The uniform envelope: [{success: true, fragUrl, jsonUrl}] with 200,
    [{success: false}] with 200, or [{success: false, error}] with 400 or
    500. *)
Definition envelope_ok (r : response) : Prop :=
  (status r = 200 /\ success r = true /\ is_Some (fragUrl r) /\ is_Some (jsonUrl r) /\
     error r = None) \/
  (status r = 200 /\ success r = false /\ fragUrl r = None /\ jsonUrl r = None /\
     error r = None) \/
  ((status r = 400 \/ status r = 500) /\ success r = false /\ fragUrl r = None /\
     jsonUrl r = None /\ is_Some (error r)).

(** An outside world in which no call fails: the directory can be made,
    every write succeeds, every download answers [ok], and the IFC engine
    accepts every model. *)
Definition faultless (e : env) : Prop :=
  env_mkdir_error e = None /\ (forall p, env_write_error e p = None) /\
  env_init_error e = None /\
  (forall d m, env_load e d <> inl m) /\ (forall h m, env_export e h <> inl m) /\
  (forall h m, env_properties e h <> inl m) /\ (forall p m, env_stringify e p <> inl m) /\
  (forall u, fetch_failure_message (env_fetch e u) = None).

(** A disk call on one of the two files of [key]; other calls are free. *)
Definition on_key (key : string) (ev : event) : Prop :=
  match ev with
  | EvStat p | EvWrite p => p = frag_name key \/ p = json_name key
  | _ => True
  end.

(** A handler run from [w] that ended in [(w', r)] addressed the pair of
    [key] only: its disk calls name the files of [key], no other file
    changed, and a successful answer carries the URLs of [key]. *)
Definition addresses (key : string) (w : world) (outcome : world * response) : Prop :=
  let '(w', r) := outcome in
  (exists new, trace w' = new ++ trace w /\ Forall (on_key key) new) /\
  (forall p, p <> frag_name key -> p <> json_name key -> disk w' !! p = disk w !! p) /\
  (success r = true -> r = res_urls (frag_url key) (json_url key)).

(** The events [l] adds on top of the trace [t] it extends. *)
Ltac prefix_of l t :=
  lazymatch l with
  | t => constr:(@nil event)
  | ?x :: ?l' => let r := prefix_of l' t in constr:(x :: r)
  end.

(** Close [exists new, l = new ++ t /\ ...] with the events of [l] above [t]. *)
Ltac new_events :=
  lazymatch goal with
  | |- exists new, ?l = new ++ ?t /\ _ =>
      let n := prefix_of l t in exists n; split; [reflexivity |]
  end.

(** A handler that always answers. *)
Definition total (h : M response) : Prop :=
  forall e w, exists w' r, h e w = (w', inr r).

(** * Concrete inputs *)

(** An outside world where every call succeeds: the source answers with
    the bytes ["IFC"], the engine exports ["FRAG"] and the properties
    serialise to ["{}"]. *)
Definition ok_env : env := {|
  env_mkdir_error := None;
  env_write_error := fun _ => None;
  env_fetch := fun _ => FetchResponse true "OK" [Byte.x49; Byte.x46; Byte.x43];
  env_init_error := None;
  env_load := fun _ => inr 0%nat;
  env_export := fun _ => inr [Byte.x46; Byte.x52; Byte.x41; Byte.x47];
  env_properties := fun _ => inr 0%nat;
  env_stringify := fun _ => inr [Byte.x7b; Byte.x7d]
|}.

(** An empty fragments directory that does not exist yet. *)
Definition empty_world : world := mkWorld ∅ false [].

(** A stand-in digest for the examples: a prefix, so distinct names give
    distinct keys. *)
Definition demo_hash (s : string) : string := ("h" ++ s)%string.

Definition upload_req (name : string) (frag json : bytes) : request :=
  mkRequest name (Some (<["fragFile" := frag]> (<["jsonFile" := json]> ∅))) None None.

Definition ifc_upload_req (name : string) (ifc : bytes) : request :=
  mkRequest name (Some {["ifcFile" := ifc]}) None None.

(** [ok_env] where [fetch] rejects with a network error. *)
Definition net_error_env (message : string) : env :=
  {| env_mkdir_error := None; env_write_error := fun _ => None;
     env_fetch := fun _ => FetchNetworkError message;
     env_init_error := None; env_load := env_load ok_env;
     env_export := env_export ok_env; env_properties := env_properties ok_env;
     env_stringify := env_stringify ok_env |}.

(** [ok_env] where the IFC engine rejects the model. *)
Definition load_error_env (message : string) : env :=
  {| env_mkdir_error := None; env_write_error := fun _ => None;
     env_fetch := env_fetch ok_env;
     env_init_error := None; env_load := fun _ => inl message;
     env_export := env_export ok_env; env_properties := env_properties ok_env;
     env_stringify := env_stringify ok_env |}.

(** A directory holding the pair of [key], with one byte in each file. *)
Definition cached_world (key : string) : world :=
  mkWorld (<[json_name key := [Byte.x7b]]> (<[frag_name key := [Byte.x01]]> ∅)) true [].

Definition check_req (name : string) : request := mkRequest name None None None.

(** An upload that carries only the fragment file. *)
Definition frag_only_req (name : string) (frag : bytes) : request :=
  mkRequest name (Some {["fragFile" := frag]}) None None.

Definition url_req (name url : string) : request :=
  mkRequest "" None (Some name) (Some url).

(** [ok_env] where [JSON.stringify(properties)] throws. *)
Definition stringify_error_env (message : string) : env :=
  {| env_mkdir_error := None; env_write_error := fun _ => None;
     env_fetch := env_fetch ok_env;
     env_init_error := None; env_load := env_load ok_env;
     env_export := env_export ok_env; env_properties := env_properties ok_env;
     env_stringify := fun _ => inl message |}.

(** [ok_env] where [fs.mkdir] fails. *)
Definition mkdir_error_env (message : string) : env :=
  {| env_mkdir_error := Some message; env_write_error := fun _ => None;
     env_fetch := env_fetch ok_env;
     env_init_error := None; env_load := env_load ok_env;
     env_export := env_export ok_env; env_properties := env_properties ok_env;
     env_stringify := env_stringify ok_env |}.

(** [ok_env] where writing the file [bad] fails. *)
Definition write_error_env (bad message : string) : env :=
  {| env_mkdir_error := None;
     env_write_error := fun p => if String.eqb p bad then Some message else None;
     env_fetch := env_fetch ok_env;
     env_init_error := None; env_load := env_load ok_env;
     env_export := env_export ok_env; env_properties := env_properties ok_env;
     env_stringify := env_stringify ok_env |}.

(** * Engine failures, surviving files and the static route *)

(** The IFC engine rejects the model [d]: [initIfcLoader()],
    [fragmentIfcLoader.load], [fragments.export] or
    [model.getLocalProperties()] throws, the later ones after the earlier
    ones succeeded. *)
Definition engine_fails (e : env) (d : bytes) : Prop :=
  is_Some (env_init_error e) \/
  (exists m, env_load e d = inl m) \/
  (exists model m, env_load e d = inr model /\
     (env_export e model = inl m \/
      exists fragData, env_export e model = inr fragData /\ env_properties e model = inl m)).

(** From [w] to [w'] no file disappeared and the directory was not
    removed. *)
Definition keeps_files (w w' : world) : Prop :=
  (forall p, is_Some (disk w !! p) -> is_Some (disk w' !! p)) /\
  (dir_exists w = true -> dir_exists w' = true).

(** ** The static route [app.use('/fragments', middleware, express.static(FRAGMENTS_DIR))] *)






(** * The handlers on concrete inputs, and their runs *)

Lemma Server_get_fragments_run getFileHash req e w :
  let hash := getFileHash (params_filename req) in
  Server.get_fragments getFileHash req e w =
    (log (EvStat (json_name hash)) (log (EvStat (frag_name hash)) w),
     inr (if bool_decide (is_Some (disk w !! frag_name hash))
             && bool_decide (is_Some (disk w !! json_name hash))
          then res_urls (frag_url hash) (json_url hash) else res_not_found)).
Proof.
  unfold Server.get_fragments. unfold_m. simpl.
  destruct (bool_decide _), (bool_decide _); reflexivity.
Qed.

Lemma Part000_get_fragments_run req e w :
  let key := params_filename req in
  Part000.get_fragments req e w =
    (log (EvStat (json_name key)) (log (EvStat (frag_name key)) w),
     inr (if bool_decide (is_Some (disk w !! frag_name key))
             && bool_decide (is_Some (disk w !! json_name key))
          then res_urls (frag_url key) (json_url key) else res_not_found)).
Proof.
  unfold Part000.get_fragments, Part000.getFilePaths, Part000.checkFilesExist.
  unfold_m. simpl.
  destruct (bool_decide _), (bool_decide _); reflexivity.
Qed.

(** A present pair is seen by both stats. *)
Lemma both_stats_pair w key :
  bool_decide (is_Some (disk w !! frag_name key))
    && bool_decide (is_Some (disk w !! json_name key)) = true
  <-> pair_present w key.
Proof.
  unfold pair_present. rewrite andb_true_iff, !bool_decide_eq_true. done.
Qed.

Example server_check_empty :
  snd (run (Server.get_fragments demo_hash (mkRequest "model-a" None None None)) ok_env empty_world)
  = res_not_found.
Proof. reflexivity. Qed.

Example server_upload_then_check :
  let w := fst (run (Server.post_fragments demo_hash (upload_req "m" [Byte.x01] [Byte.x02])) ok_env empty_world) in
  snd (run (Server.get_fragments demo_hash (mkRequest "m" None None None)) ok_env w)
  = res_urls "/fragments/hm.frag" "/fragments/hm.json".
Proof. vm_compute. reflexivity. Qed.

Example part000_convert_writes :
  let '(w, r) := run (Part000.convert_ifc (url_req "model-a" "http://s3/a.ifc")) ok_env empty_world in
  r = res_urls "/fragments/model-a.frag" "/fragments/model-a.json" /\
  disk w !! "model-a.json" = Some [Byte.x7b; Byte.x7d].
Proof. vm_compute. split; reflexivity. Qed.

(** * C1: both-or-absent *)

(** C1. The Check endpoint of both servers reports the Artifact Pair of a
    key present only when both [{key}.frag] and [{key}.json] exist; when
    exactly one of them exists it answers HTTP 200 with [{success: false}]
    and serves no URL. *)
Theorem check_both_or_absent :
  (forall getFileHash req e w,
     let key := getFileHash (params_filename req) in
     let r := snd (run (Server.get_fragments getFileHash req) e w) in
     (success r = true -> pair_present w key) /\
     (~ pair_present w key -> r = res_not_found)) /\
  (forall req e w,
     let key := params_filename req in
     let r := snd (run (Part000.get_fragments req) e w) in
     (success r = true -> pair_present w key) /\
     (~ pair_present w key -> r = res_not_found)).
Proof.
  split; [intros h req e w | intros req e w]; cbv zeta; unfold run;
    [rewrite Server_get_fragments_run | rewrite Part000_get_fragments_run];
    cbn [snd];
    rewrite <- both_stats_pair;
    (destruct (_ && _); [split; [done | intros []; done] | split; [done | done]]).
Qed.

(** * C10: Check is read-only *)

(** C10. A Check request leaves the fragments directory as it found it:
    every file keeps its presence and contents, and the directory its
    existence, whatever the request and on every path of the handler. *)
Theorem check_leaves_disk :
  (forall getFileHash req e w,
     let w' := fst (run (Server.get_fragments getFileHash req) e w) in
     disk w' = disk w /\ dir_exists w' = dir_exists w) /\
  (forall req e w,
     let w' := fst (run (Part000.get_fragments req) e w) in
     disk w' = disk w /\ dir_exists w' = dir_exists w).
Proof.
  split; [intros h req e w | intros req e w]; cbv zeta; unfold run;
    [rewrite Server_get_fragments_run | rewrite Part000_get_fragments_run];
    done.
Qed.

(** * C5: an upload without both files is refused *)

(** C5. An Upload request that lacks the fragment file or the properties
    file gets HTTP 400 with [success: false] in both servers, and leaves
    the fragments directory untouched (no file written, no directory
    created). *)
Theorem upload_missing_file_rejected :
  (forall getFileHash req e w,
     req_file req "fragFile" = None \/ req_file req "jsonFile" = None ->
     let '(w', r) := run (Server.post_fragments getFileHash req) e w in
     r = res_error 400 "Missing files" /\ disk w' = disk w /\ dir_exists w' = dir_exists w) /\
  (forall req e w,
     req_file req "fragFile" = None \/ req_file req "jsonFile" = None ->
     let '(w', r) := run (Part000.post_fragments req) e w in
     r = res_error 400 "Missing files" /\ disk w' = disk w /\ dir_exists w' = dir_exists w).
Proof.
  split; [intros h req e w Hmiss | intros req e w Hmiss];
    unfold run, Server.post_fragments, Part000.post_fragments, try_catch, ret;
    (destruct Hmiss as [-> | ->];
     [done | destruct (req_file req "fragFile"); done]).
Qed.

Lemma upload_missing_file_rejected_witness :
  req_file (frag_only_req "m" [Byte.x01]) "jsonFile" = None /\
  (let '(w', r) := run (Server.post_fragments demo_hash (frag_only_req "m" [Byte.x01])) ok_env empty_world in
   r = res_error 400 "Missing files" /\ disk w' = disk empty_world /\ dir_exists w' = dir_exists empty_world) /\
  (let '(w', r) := run (Part000.post_fragments (frag_only_req "m" [Byte.x01])) ok_env empty_world in
   r = res_error 400 "Missing files" /\ disk w' = disk empty_world /\ dir_exists w' = dir_exists empty_world).
Proof.
  split; [reflexivity |].
  split; [apply (proj1 upload_missing_file_rejected) | apply (proj2 upload_missing_file_rejected)];
    right; reflexivity.
Defined.

(** * C6: upload round trip *)

Lemma frag_json_names_differ key : frag_name key <> json_name key.
Proof.
  unfold frag_name, json_name.
  induction key as [| c key IH]; simpl; [discriminate |].
  intros Heq. injection Heq. exact IH.
Qed.

Lemma lookup_two_writes (d : gmap string bytes) key f j :
  <[json_name key := j]> (<[frag_name key := f]> d) !! frag_name key = Some f /\
  <[json_name key := j]> (<[frag_name key := f]> d) !! json_name key = Some j.
Proof.
  pose proof (frag_json_names_differ key).
  split; [rewrite lookup_insert_ne by done |]; by rewrite lookup_insert_eq.
Qed.

(** C6. In both servers, an Upload that answers [success: true] has
    stored the uploaded fragment and properties bytes verbatim at
    [{key}.frag] and [{key}.json], and a following Check for the same
    name answers [success: true] with the very URLs the Upload returned. *)
Theorem upload_then_check :
  (forall getFileHash req req' e w w1 r1,
     run (Server.post_fragments getFileHash req) e w = (w1, r1) ->
     success r1 = true ->
     params_filename req' = params_filename req ->
     let key := getFileHash (params_filename req) in
     exists fragData jsonData,
       req_file req "fragFile" = Some fragData /\ req_file req "jsonFile" = Some jsonData /\
       disk w1 !! frag_name key = Some fragData /\ disk w1 !! json_name key = Some jsonData /\
       r1 = res_urls (frag_url key) (json_url key) /\
       snd (run (Server.get_fragments getFileHash req') e w1) = r1) /\
  (forall req req' e w w1 r1,
     run (Part000.post_fragments req) e w = (w1, r1) ->
     success r1 = true ->
     params_filename req' = params_filename req ->
     let key := params_filename req in
     exists fragData jsonData,
       req_file req "fragFile" = Some fragData /\ req_file req "jsonFile" = Some jsonData /\
       disk w1 !! frag_name key = Some fragData /\ disk w1 !! json_name key = Some jsonData /\
       r1 = res_urls (frag_url key) (json_url key) /\
       snd (run (Part000.get_fragments req') e w1) = r1).
Proof.
  split.
  - intros h req req' e w w1 r1 Hrun Hs Hname. cbv zeta.
    unfold run, Server.post_fragments, Server.ensureFragmentsDir in Hrun. unfold_m.
    destruct (req_file req "fragFile") as [f|]; [| simplify_eq/=; done].
    destruct (req_file req "jsonFile") as [j|]; [| simplify_eq/=; done].
    exists f, j. simpl in Hrun.
    repeat (case_match; simplify_eq/=); try done;
      unfold run; rewrite Server_get_fragments_run, Hname; simpl;
      destruct (lookup_two_writes (disk w) (h (params_filename req)) f j) as [-> ->];
      done.
  - intros req req' e w w1 r1 Hrun Hs Hname. cbv zeta.
    unfold run, Part000.post_fragments, Part000.ensureFragmentsDir, Part000.getFilePaths,
      Part000.all2 in Hrun. unfold_m.
    destruct (req_file req "fragFile") as [f|]; [| simplify_eq/=; done].
    destruct (req_file req "jsonFile") as [j|]; [| simplify_eq/=; done].
    exists f, j. simpl in Hrun.
    repeat (case_match; simplify_eq/=); try done;
      unfold run; rewrite Part000_get_fragments_run, Hname; simpl;
      destruct (lookup_two_writes (disk w) (params_filename req) f j) as [-> ->];
      done.
Qed.

(** * Convert: the cache short-circuit *)

Lemma pair_present_stats w key :
  pair_present w key ->
  bool_decide (is_Some (disk w !! frag_name key))
    && bool_decide (is_Some (disk w !! json_name key)) = true.
Proof. apply both_stats_pair. Qed.

Lemma Server_convert_cached getFileHash req e w :
  let hash := getFileHash (params_filename req) in
  pair_present w hash ->
  Server.convert_ifc getFileHash req e w =
    (log (EvStat (json_name hash)) (log (EvStat (frag_name hash)) w),
     inr (res_urls (frag_url hash) (json_url hash))).
Proof.
  cbv zeta. intros Hp. unfold Server.convert_ifc. unfold_m. simpl.
  rewrite (pair_present_stats _ _ Hp). reflexivity.
Qed.

Lemma Part000_convert_cached req e w filename ifcUrl :
  body_filename req = Some filename -> body_ifcUrl req = Some ifcUrl ->
  filename <> "" -> ifcUrl <> "" ->
  pair_present w filename ->
  Part000.convert_ifc req e w =
    (log (EvStat (json_name filename)) (log (EvStat (frag_name filename)) w),
     inr (res_urls (frag_url filename) (json_url filename))).
Proof.
  intros Hf Hu Hf0 Hu0 Hp.
  unfold Part000.convert_ifc, Part000.getFilePaths, Part000.checkFilesExist. unfold_m.
  rewrite Hf, Hu. unfold truthy.
  apply String.eqb_neq in Hf0, Hu0. rewrite Hf0, Hu0. simpl.
  rewrite (pair_present_stats _ _ Hp). reflexivity.
Qed.

Lemma pair_present_two_writes (d : gmap string bytes) dir t key f j :
  pair_present (mkWorld (<[json_name key := j]> (<[frag_name key := f]> d)) dir t) key.
Proof.
  unfold pair_present; simpl.
  destruct (lookup_two_writes d key f j) as [-> ->]. done.
Qed.

(** A successful Convert leaves the pair of its key on disk. *)
Lemma Server_convert_success_pair getFileHash req e w w1 r1 :
  Server.convert_ifc getFileHash req e w = (w1, inr r1) ->
  success r1 = true ->
  pair_present w1 (getFileHash (params_filename req)) /\
  r1 = res_urls (frag_url (getFileHash (params_filename req)))
                (json_url (getFileHash (params_filename req))).
Proof.
  intros Hrun Hs.
  unfold Server.convert_ifc, Server.ensureFragmentsDir in Hrun. unfold_m. simpl in Hrun.
  repeat (case_match; simplify_eq/=); try done;
    match goal with
    | H : _ && _ = true |- _ => apply both_stats_pair in H; split; [exact H | done]
    | _ => split; [apply pair_present_two_writes | done]
    end.
Qed.

Lemma try_catch_total (m : M response) (f : string -> response) :
  total (try_catch m (fun x => ret (f x))).
Proof.
  intros e w. unfold try_catch, ret.
  destruct (m e w) as [w' [x | r]]; eauto.
Qed.

Lemma Server_handlers_total getFileHash req :
  total (Server.get_fragments getFileHash req) /\
  total (Server.post_fragments getFileHash req) /\
  total (Server.convert_ifc getFileHash req).
Proof. split_and!; apply try_catch_total. Qed.

Lemma Part000_handlers_total req :
  total (Part000.get_fragments req) /\
  total (Part000.post_fragments req) /\
  total (Part000.convert_ifc req).
Proof. split_and!; apply try_catch_total. Qed.

Lemma run_total h e w w1 r1 :
  total h -> run h e w = (w1, r1) -> h e w = (w1, inr r1).
Proof.
  intros Ht Hrun. destruct (Ht e w) as (w' & r & Heq).
  unfold run in Hrun. rewrite Heq in Hrun. rewrite Heq. by simplify_eq.
Qed.

Lemma run_inr (h : M response) e w w1 r1 :
  h e w = (w1, inr r1) -> run h e w = (w1, r1).
Proof. intros Heq. unfold run. by rewrite Heq. Qed.

Lemma Part000_convert_success_pair req e w w1 r1 :
  Part000.convert_ifc req e w = (w1, inr r1) ->
  success r1 = true ->
  exists filename ifcUrl,
    body_filename req = Some filename /\ body_ifcUrl req = Some ifcUrl /\
    filename <> "" /\ ifcUrl <> "" /\
    pair_present w1 filename /\
    r1 = res_urls (frag_url filename) (json_url filename).
Proof.
  intros Hrun Hs.
  unfold Part000.convert_ifc, Part000.getFilePaths, Part000.checkFilesExist,
    Part000.fetchIfcFile, Part000.ensureFragmentsDir, Part000.all2 in Hrun.
  unfold_m.
  destruct (body_filename req) as [filename|]; [| simplify_eq/=; done].
  destruct (body_ifcUrl req) as [ifcUrl|]; [| simplify_eq/=; done].
  exists filename, ifcUrl. unfold truthy in Hrun.
  destruct (String.eqb_spec filename "") as [Hf | Hf]; [simplify_eq/=; done |].
  destruct (String.eqb_spec ifcUrl "") as [Hu | Hu]; [simplify_eq/=; done |].
  simpl in Hrun.
  repeat (case_match; simplify_eq/=); try done;
    match goal with
    | H : _ && _ = true |- _ => apply both_stats_pair in H; split_and!; done
    | _ => split_and!; [done | done | done | done | apply pair_present_two_writes | done]
    end.
Qed.

(** * C2: the cache short-circuit and idempotent Convert *)

(** C2. When the Artifact Pair of the requested key is on disk, Convert
    answers the pair's URLs after the two existence checks alone: no fetch,
    no engine call, no write (the world only gains the two [stat] events).
    For the JSON route of [part_000] this is for a well-formed request
    (non-empty [filename] and [ifcUrl]). Hence a second Convert with the
    same request, after a first one that succeeded, returns the same URLs
    and makes no fetch and no conversion, whatever the environment. *)
Theorem convert_cache_hit_idempotent :
  (forall getFileHash req e w,
     let hash := getFileHash (params_filename req) in
     pair_present w hash ->
     run (Server.convert_ifc getFileHash req) e w =
       (log (EvStat (json_name hash)) (log (EvStat (frag_name hash)) w),
        res_urls (frag_url hash) (json_url hash))) /\
  (forall getFileHash req e e' w w1 r1,
     run (Server.convert_ifc getFileHash req) e w = (w1, r1) ->
     success r1 = true ->
     let hash := getFileHash (params_filename req) in
     run (Server.convert_ifc getFileHash req) e' w1 =
       (log (EvStat (json_name hash)) (log (EvStat (frag_name hash)) w1), r1)) /\
  (forall req e w filename ifcUrl,
     body_filename req = Some filename -> body_ifcUrl req = Some ifcUrl ->
     filename <> "" -> ifcUrl <> "" ->
     pair_present w filename ->
     run (Part000.convert_ifc req) e w =
       (log (EvStat (json_name filename)) (log (EvStat (frag_name filename)) w),
        res_urls (frag_url filename) (json_url filename))) /\
  (forall req e e' w w1 r1,
     run (Part000.convert_ifc req) e w = (w1, r1) ->
     success r1 = true ->
     exists filename,
       body_filename req = Some filename /\
       run (Part000.convert_ifc req) e' w1 =
         (log (EvStat (json_name filename)) (log (EvStat (frag_name filename)) w1), r1)).
Proof.
  split_and!.
  - intros h req e w; cbv zeta; intros Hp.
    apply run_inr. by apply Server_convert_cached.
  - intros h req e e' w w1 r1 Hrun Hs; cbv zeta.
    apply run_total in Hrun; [| apply Server_handlers_total].
    destruct (Server_convert_success_pair _ _ _ _ _ _ Hrun Hs) as [Hp ->].
    apply run_inr. by apply Server_convert_cached.
  - intros req e w filename ifcUrl Hf Hu Hf0 Hu0 Hp.
    apply run_inr. by eapply Part000_convert_cached.
  - intros req e e' w w1 r1 Hrun Hs.
    apply run_total in Hrun; [| apply Part000_handlers_total].
    destruct (Part000_convert_success_pair _ _ _ _ _ Hrun Hs)
      as (filename & ifcUrl & Hf & Hu & Hf0 & Hu0 & Hp & ->).
    exists filename. split; [done |].
    apply run_inr. by eapply Part000_convert_cached.
Qed.

(** * C9: the multipart Convert checks the cache before its input *)

(** C9. In [server.js], a Convert request that carries no IFC file is
    answered from the cache when the pair of its key is on disk (HTTP 200,
    [success: true], the cached URLs), and with HTTP 400
    ["Missing IFC file"] when the pair is absent: the cache check comes
    before the missing-input check. *)
Theorem convert_missing_ifc_after_cache getFileHash req e w :
  req_file req "ifcFile" = None ->
  let hash := getFileHash (params_filename req) in
  let r := snd (run (Server.convert_ifc getFileHash req) e w) in
  (pair_present w hash -> r = res_urls (frag_url hash) (json_url hash) /\ status r = 200) /\
  (~ pair_present w hash -> r = res_error 400 "Missing IFC file" /\ status r = 400).
Proof.
  intros Hnone. cbv zeta. split.
  - intros Hp. unfold run. by rewrite Server_convert_cached.
  - intros Hp. unfold run, Server.convert_ifc. unfold_m. simpl.
    rewrite <- both_stats_pair in Hp.
    destruct (_ && _); [done |]. by rewrite Hnone.
Qed.

Lemma convert_missing_ifc_after_cache_witness :
  req_file (check_req "m") "ifcFile" = None /\
  (let r := snd (run (Server.convert_ifc demo_hash (check_req "m")) ok_env (cached_world "hm")) in
   (pair_present (cached_world "hm") "hm" -> r = res_urls (frag_url "hm") (json_url "hm") /\ status r = 200) /\
   (~ pair_present (cached_world "hm") "hm" -> r = res_error 400 "Missing IFC file" /\ status r = 400)).
Proof.
  split; [reflexivity |].
  exact (convert_missing_ifc_after_cache demo_hash (check_req "m") ok_env (cached_world "hm") eq_refl).
Defined.

(** * C3: a failed download *)

(** C3, counterexample. The JSON Convert route of [part_000] has no error
    kind of its own for a failed download: a [fetch] that rejects with the
    network error ["fetch failed"] and an IFC engine that rejects the
    downloaded model with the same message produce the very same response,
    HTTP 500 with ["Server error during IFC conversion: fetch failed"]. *)
Lemma fetch_failure_not_distinct :
  snd (run (Part000.convert_ifc (url_req "model-a" "https://s3/a.ifc"))
         (net_error_env "fetch failed") empty_world)
  = snd (run (Part000.convert_ifc (url_req "model-a" "https://s3/a.ifc"))
           (load_error_env "fetch failed") empty_world) /\
  snd (run (Part000.convert_ifc (url_req "model-a" "https://s3/a.ifc"))
         (net_error_env "fetch failed") empty_world)
  = res_error 500 "Server error during IFC conversion: fetch failed".
Proof. vm_compute. split; reflexivity. Qed.

(** C3, as the code has it. When the pair is not cached and downloading
    the model fails (a network error, or a response whose [ok] is false),
    the JSON Convert route of [part_000] writes nothing (files and
    directory as before), never reaches the IFC engine (the only new calls
    are the two [stat]s and the [fetch]), and answers HTTP 500 with
    [success: false] and the error
    ["Server error during IFC conversion: " + message], where the message
    is ["Failed to fetch IFC file: " + statusText] for a non-success
    status and the network error's own message otherwise. *)
Theorem fetch_failure_writes_nothing req e w filename ifcUrl message :
  body_filename req = Some filename -> body_ifcUrl req = Some ifcUrl ->
  filename <> "" -> ifcUrl <> "" ->
  ~ pair_present w filename ->
  fetch_failure_message (env_fetch e ifcUrl) = Some message ->
  let '(w', r) := run (Part000.convert_ifc req) e w in
  disk w' = disk w /\ dir_exists w' = dir_exists w /\
  trace w' = EvFetch ifcUrl :: EvStat (json_name filename) :: EvStat (frag_name filename) :: trace w /\
  r = res_error 500 ("Server error during IFC conversion: " ++ message)%string.
Proof.
  intros Hf Hu Hf0 Hu0 Hp Hm.
  unfold run, Part000.convert_ifc, Part000.getFilePaths, Part000.checkFilesExist,
    Part000.fetchIfcFile.
  unfold_m. rewrite Hf, Hu. unfold truthy.
  apply String.eqb_neq in Hf0, Hu0. rewrite Hf0, Hu0. simpl.
  rewrite <- both_stats_pair in Hp. destruct (_ && _); [done |]. simpl.
  destruct (env_fetch e ifcUrl) as [m | [] st b]; simpl in Hm; simplify_eq; done.
Qed.

Lemma fetch_failure_writes_nothing_witness :
  let w := empty_world in
  let '(w', r) := run (Part000.convert_ifc (url_req "model-a" "https://s3/a.ifc"))
                    (net_error_env "fetch failed") w in
  disk w' = disk w /\ dir_exists w' = dir_exists w /\
  trace w' = EvFetch "https://s3/a.ifc" :: EvStat (json_name "model-a")
             :: EvStat (frag_name "model-a") :: trace w /\
  r = res_error 500 ("Server error during IFC conversion: " ++ "fetch failed")%string.
Proof.
  apply (fetch_failure_writes_nothing (url_req "model-a" "https://s3/a.ifc")
           (net_error_env "fetch failed") empty_world "model-a" "https://s3/a.ifc");
    [reflexivity | reflexivity | discriminate | discriminate | | reflexivity].
  unfold pair_present. simpl. rewrite lookup_empty. intros [[? ?] _]. discriminate.
Defined.

(** * C4: disposing of the IFC engine *)

(** C4, counterexample. When the engine rejects the model, both Convert
    routes answer HTTP 500 after [initIfcLoader()] without calling
    [fragments.dispose()] or [components.dispose()]: the calls sit after
    the writes in the [try] block, and there is no [finally]. *)
Lemma convert_failure_skips_dispose :
  (let R := run (Server.convert_ifc demo_hash (ifc_upload_req "m" [Byte.x49]))
               (load_error_env "invalid IFC") empty_world in
   let w := fst R in let r := snd R in
   status r = 500 /\ (EvInit ∈ trace w) /\
   (EvDisposeFragments ∉ trace w) /\ (EvDisposeComponents ∉ trace w)) /\
  (let R := run (Part000.convert_ifc (url_req "model-a" "https://s3/a.ifc"))
               (load_error_env "invalid IFC") empty_world in
   let w := fst R in let r := snd R in
   status r = 500 /\ (EvInit ∈ trace w) /\
   (EvDisposeFragments ∉ trace w) /\ (EvDisposeComponents ∉ trace w)).
Proof.
  cbv zeta.
  split; split_and!; try (vm_compute; reflexivity);
    apply (bool_decide_unpack _); vm_compute; reflexivity.
Qed.

(** C4, as the code has it. In both Convert routes, a request that
    initialised the IFC engine and answers [success: true] has called
    [fragments.dispose()] and [components.dispose()]; a request that
    answers [success: false] has called neither (disposal is the last step
    of the [try] block, not a [finally]). *)
Theorem convert_dispose_on_success :
  (forall getFileHash req e w,
     let '(w', r) := run (Server.convert_ifc getFileHash req) e w in
     exists new, trace w' = new ++ trace w /\
       (success r = true -> EvInit ∈ new ->
          (EvDisposeFragments ∈ new) /\ (EvDisposeComponents ∈ new)) /\
       (success r = false ->
          (EvDisposeFragments ∉ new) /\ (EvDisposeComponents ∉ new))) /\
  (forall req e w,
     let '(w', r) := run (Part000.convert_ifc req) e w in
     exists new, trace w' = new ++ trace w /\
       (success r = true -> EvInit ∈ new ->
          (EvDisposeFragments ∈ new) /\ (EvDisposeComponents ∈ new)) /\
       (success r = false ->
          (EvDisposeFragments ∉ new) /\ (EvDisposeComponents ∉ new))).
Proof.
  split.
  - intros h req e w.
    unfold run, Server.convert_ifc, Server.ensureFragmentsDir. unfold_m. simpl.
    repeat (case_match; simplify_eq/=); new_events; split; intros Hs; try done;
      set_solver.
  - intros req e w.
    unfold run, Part000.convert_ifc, Part000.getFilePaths, Part000.checkFilesExist,
      Part000.fetchIfcFile, Part000.ensureFragmentsDir, Part000.all2.
    unfold_m. simpl.
    repeat (case_match; simplify_eq/=); new_events; split; intros Hs; try done;
      set_solver.
Qed.

(** * C7: one key per name, on every endpoint *)

Ltac addresses_tac :=
  repeat (case_match; simplify_eq/=);
  (unfold addresses;
   refine (conj _ (conj _ _));
   [ new_events;
     repeat (apply List.Forall_cons;
             [simpl; first [left; reflexivity | right; reflexivity | exact I] |]);
     apply List.Forall_nil
   | intros ?p ?Hp1 ?Hp2; rewrite ?lookup_insert_ne by congruence; done
   | intros ?Hs; done ]).

(** C7. Each server derives the key of a name with one function, used by
    all three endpoints: [getFileHash] in [server.js] (for any digest
    function), the name itself in [part_000]. Every Check, Upload and
    Convert request for the name [n] (the route parameter, or the body's
    [filename] for the JSON Convert) stats and writes only
    [{key}.frag] and [{key}.json] of that one key, changes no other file,
    and answers success with the URLs of that key. *)
Theorem same_key_all_endpoints :
  (forall getFileHash n req e w,
     params_filename req = n ->
     addresses (getFileHash n) w (run (Server.get_fragments getFileHash req) e w) /\
     addresses (getFileHash n) w (run (Server.post_fragments getFileHash req) e w) /\
     addresses (getFileHash n) w (run (Server.convert_ifc getFileHash req) e w)) /\
  (forall n req req' e w,
     params_filename req = n -> body_filename req' = Some n ->
     addresses n w (run (Part000.get_fragments req) e w) /\
     addresses n w (run (Part000.post_fragments req) e w) /\
     addresses n w (run (Part000.convert_ifc req') e w)).
Proof.
  split.
  - intros h n req e w <-. split_and!.
    + unfold run, Server.get_fragments. unfold_m. simpl. addresses_tac.
    + unfold run, Server.post_fragments, Server.ensureFragmentsDir. unfold_m. simpl.
      addresses_tac.
    + unfold run, Server.convert_ifc, Server.ensureFragmentsDir. unfold_m. simpl.
      addresses_tac.
  - intros n req req' e w <- Hn. split_and!.
    + unfold run, Part000.get_fragments, Part000.getFilePaths, Part000.checkFilesExist.
      unfold_m. simpl. addresses_tac.
    + unfold run, Part000.post_fragments, Part000.getFilePaths,
        Part000.ensureFragmentsDir, Part000.all2.
      unfold_m. simpl. addresses_tac.
    + unfold run, Part000.convert_ifc, Part000.getFilePaths, Part000.checkFilesExist,
        Part000.fetchIfcFile, Part000.ensureFragmentsDir, Part000.all2.
      unfold_m. rewrite Hn. simpl. addresses_tac.
Qed.

(** * C8: envelopes and status codes *)

(** C8, counterexample. A Convert request to [server.js] that carries no
    IFC file is missing its input, yet it gets HTTP 200 with
    [success: true] when the pair of its key is cached. *)
Lemma missing_input_answered_200 :
  req_file (check_req "m") "ifcFile" = None /\
  snd (run (Server.convert_ifc demo_hash (check_req "m")) ok_env (cached_world "hm"))
  = res_urls "/fragments/hm.frag" "/fragments/hm.json" /\
  status (snd (run (Server.convert_ifc demo_hash (check_req "m")) ok_env (cached_world "hm")))
  = 200.
Proof. vm_compute. split_and!; reflexivity. Qed.

Ltac envelope_tac Hf :=
  repeat (case_match; simplify_eq/=);
  (split; [unfold envelope_ok; simpl; naive_solver |];
   split;
   [ try (split; intros; naive_solver)
   | intros Hf; simpl; try discriminate;
     destruct Hf as (Hmk & Hwr & Hin & Hld & Hex & Hpr & Hst & Hfe);
     exfalso;
     first
       [ congruence
       | match goal with
         | H : env_write_error _ ?p = Some _ |- _ => rewrite Hwr in H; discriminate
         | H : env_load _ ?d = inl ?m |- _ => exact (Hld d m H)
         | H : env_export _ ?d = inl ?m |- _ => exact (Hex d m H)
         | H : env_properties _ ?d = inl ?m |- _ => exact (Hpr d m H)
         | H : env_stringify _ ?d = inl ?m |- _ => exact (Hst d m H)
         | H : env_fetch _ ?u = _ |- _ =>
             pose proof (Hfe u) as Hu; rewrite H in Hu; simpl in Hu;
             repeat case_match; simplify_eq/=; done
         end ] ]).

Lemma Server_post_fragments_envelope getFileHash req e w :
  let r := snd (run (Server.post_fragments getFileHash req) e w) in
  envelope_ok r /\
  (status r = 400 <-> req_file req "fragFile" = None \/ req_file req "jsonFile" = None) /\
  (faultless e -> status r <> 500).
Proof.
  cbv zeta. unfold run, Server.post_fragments, Server.ensureFragmentsDir. unfold_m. simpl.
  envelope_tac Hf.
Qed.

Lemma Server_convert_ifc_envelope getFileHash req e w :
  let r := snd (run (Server.convert_ifc getFileHash req) e w) in
  envelope_ok r /\
  (status r = 400 <->
     ~ pair_present w (getFileHash (params_filename req)) /\ req_file req "ifcFile" = None) /\
  (faultless e -> status r <> 500).
Proof.
  cbv zeta. rewrite <- both_stats_pair.
  unfold run, Server.convert_ifc, Server.ensureFragmentsDir. unfold_m. simpl.
  envelope_tac Hf.
Qed.

Lemma Part000_post_fragments_envelope req e w :
  let r := snd (run (Part000.post_fragments req) e w) in
  envelope_ok r /\
  (status r = 400 <-> req_file req "fragFile" = None \/ req_file req "jsonFile" = None) /\
  (faultless e -> status r <> 500).
Proof.
  cbv zeta.
  unfold run, Part000.post_fragments, Part000.getFilePaths, Part000.ensureFragmentsDir,
    Part000.all2.
  unfold_m. simpl.
  envelope_tac Hf.
Qed.

Lemma Part000_convert_ifc_envelope req e w :
  let r := snd (run (Part000.convert_ifc req) e w) in
  envelope_ok r /\
  (status r = 400 <-> truthy (body_filename req) && truthy (body_ifcUrl req) = false) /\
  (faultless e -> status r <> 500).
Proof.
  cbv zeta.
  unfold run, Part000.convert_ifc, Part000.getFilePaths, Part000.checkFilesExist,
    Part000.fetchIfcFile, Part000.ensureFragmentsDir, Part000.all2.
  unfold_m. unfold truthy.
  destruct (body_filename req) as [f|]; destruct (body_ifcUrl req) as [u|];
    try destruct (String.eqb f ""); try destruct (String.eqb u ""); simpl;
    envelope_tac Hf.
Qed.

Lemma check_envelope (r : response) key :
  r = res_urls (frag_url key) (json_url key) \/ r = res_not_found ->
  envelope_ok r /\ status r = 200.
Proof. unfold envelope_ok. intros [-> | ->]; simpl; naive_solver. Qed.

(** C8, as the code has it. Every route of both servers answers one of
    three envelopes: [{success: true, fragUrl, jsonUrl}] with 200,
    [{success: false}] with 200, or [{success: false, error}] with 400 or
    500. Check always answers 200, with [{success: false}] when the pair
    is absent. HTTP 400 is sent exactly when a required field is missing:
    an Upload without [fragFile] or [jsonFile]; the JSON Convert without a
    non-empty [filename] or [ifcUrl]; the multipart Convert without an IFC
    file, and then only when the pair is not cached. HTTP 500 is sent only
    when a call to the outside world fails: in a [faultless] environment
    no route answers 500. *)
Theorem envelope_and_status :
  (forall getFileHash req e w,
     let r := snd (run (Server.get_fragments getFileHash req) e w) in
     envelope_ok r /\ status r = 200 /\
     (~ pair_present w (getFileHash (params_filename req)) -> r = res_not_found)) /\
  (forall getFileHash req e w,
     let r := snd (run (Server.post_fragments getFileHash req) e w) in
     envelope_ok r /\
     (status r = 400 <-> req_file req "fragFile" = None \/ req_file req "jsonFile" = None) /\
     (faultless e -> status r <> 500)) /\
  (forall getFileHash req e w,
     let r := snd (run (Server.convert_ifc getFileHash req) e w) in
     envelope_ok r /\
     (status r = 400 <->
        ~ pair_present w (getFileHash (params_filename req)) /\ req_file req "ifcFile" = None) /\
     (faultless e -> status r <> 500)) /\
  (forall req e w,
     let r := snd (run (Part000.get_fragments req) e w) in
     envelope_ok r /\ status r = 200 /\
     (~ pair_present w (params_filename req) -> r = res_not_found)) /\
  (forall req e w,
     let r := snd (run (Part000.post_fragments req) e w) in
     envelope_ok r /\
     (status r = 400 <-> req_file req "fragFile" = None \/ req_file req "jsonFile" = None) /\
     (faultless e -> status r <> 500)) /\
  (forall req e w,
     let r := snd (run (Part000.convert_ifc req) e w) in
     envelope_ok r /\
     (status r = 400 <-> truthy (body_filename req) && truthy (body_ifcUrl req) = false) /\
     (faultless e -> status r <> 500)).
Proof.
  split_and!.
  - intros h req e w. cbv zeta. unfold run. rewrite Server_get_fragments_run. simpl.
    rewrite <- both_stats_pair.
    destruct (_ && _).
    + split; [by apply (check_envelope _ (h (params_filename req))); left |]. done.
    + split; [by apply (check_envelope _ (h (params_filename req))); right |]. done.
  - apply Server_post_fragments_envelope.
  - apply Server_convert_ifc_envelope.
  - intros req e w. cbv zeta. unfold run. rewrite Part000_get_fragments_run. simpl.
    rewrite <- both_stats_pair.
    destruct (_ && _).
    + split; [by apply (check_envelope _ (params_filename req)); left |]. done.
    + split; [by apply (check_envelope _ (params_filename req)); right |]. done.
  - apply Part000_post_fragments_envelope.
  - apply Part000_convert_ifc_envelope.
Qed.

(** * Further behaviour of the handlers *)

(** X1. Convert, then Check. In both servers, after a Convert that
    answers [success: true], a Check for the same name (the route
    parameter; for the JSON Convert of [part_000], its body [filename])
    answers the very same response, whatever the environment of the
    Check. *)
Theorem convert_then_check :
  (forall getFileHash req req' e e' w w1 r1,
     run (Server.convert_ifc getFileHash req) e w = (w1, r1) ->
     success r1 = true ->
     params_filename req' = params_filename req ->
     snd (run (Server.get_fragments getFileHash req') e' w1) = r1) /\
  (forall req req' e e' w w1 r1 filename,
     run (Part000.convert_ifc req) e w = (w1, r1) ->
     success r1 = true ->
     body_filename req = Some filename ->
     params_filename req' = filename ->
     snd (run (Part000.get_fragments req') e' w1) = r1).
Proof.
  split.
  - intros h req req' e e' w w1 r1 Hrun Hs Hname.
    apply run_total in Hrun; [| apply Server_handlers_total].
    destruct (Server_convert_success_pair _ _ _ _ _ _ Hrun Hs) as [Hp ->].
    unfold run. rewrite Server_get_fragments_run, Hname. simpl.
    by rewrite (pair_present_stats _ _ Hp).
  - intros req req' e e' w w1 r1 filename Hrun Hs Hf Hname.
    apply run_total in Hrun; [| apply Part000_handlers_total].
    destruct (Part000_convert_success_pair _ _ _ _ _ Hrun Hs)
      as (filename' & ifcUrl & Hf' & _ & _ & _ & Hp & ->).
    rewrite Hf in Hf'. simplify_eq.
    unfold run. rewrite Part000_get_fragments_run. simpl.
    by rewrite (pair_present_stats _ _ Hp).
Qed.

(** X2. When the pair was not cached, a Convert that answers
    [success: true] has stored exactly the engine's output: [{key}.frag]
    holds [fragments.export(model)] and [{key}.json] holds
    [JSON.stringify(model.getLocalProperties())], for the model loaded
    from the uploaded IFC file ([server.js]) or from the downloaded body
    ([part_000]); no other file changed. *)
Theorem convert_stores_engine_output :
  (forall getFileHash req e w w1 r1,
     ~ pair_present w (getFileHash (params_filename req)) ->
     run (Server.convert_ifc getFileHash req) e w = (w1, r1) ->
     success r1 = true ->
     exists ifcData model fragData props propsJson,
       req_file req "ifcFile" = Some ifcData /\ env_load e ifcData = inr model /\
       env_export e model = inr fragData /\ env_properties e model = inr props /\
       env_stringify e props = inr propsJson /\
       disk w1 = <[json_name (getFileHash (params_filename req)) := propsJson]>
                   (<[frag_name (getFileHash (params_filename req)) := fragData]> (disk w))) /\
  (forall req e w w1 r1 filename ifcUrl,
     body_filename req = Some filename -> body_ifcUrl req = Some ifcUrl ->
     ~ pair_present w filename ->
     run (Part000.convert_ifc req) e w = (w1, r1) ->
     success r1 = true ->
     exists statusText ifcData model fragData props propsJson,
       env_fetch e ifcUrl = FetchResponse true statusText ifcData /\
       env_load e ifcData = inr model /\
       env_export e model = inr fragData /\ env_properties e model = inr props /\
       env_stringify e props = inr propsJson /\
       disk w1 = <[json_name filename := propsJson]> (<[frag_name filename := fragData]> (disk w))).
Proof.
  split.
  - intros h req e w w1 r1 Hp Hrun Hs.
    apply run_total in Hrun; [| apply Server_handlers_total].
    unfold Server.convert_ifc, Server.ensureFragmentsDir in Hrun. unfold_m. simpl in Hrun.
    rewrite <- both_stats_pair in Hp.
    repeat (case_match; simplify_eq/=); try done.
    all: try (eexists _, _, _, _, _; split_and!; first [eassumption | reflexivity]).
  - intros req e w w1 r1 filename ifcUrl Hf Hu Hp Hrun Hs.
    apply run_total in Hrun; [| apply Part000_handlers_total].
    unfold Part000.convert_ifc, Part000.getFilePaths, Part000.checkFilesExist,
      Part000.fetchIfcFile, Part000.ensureFragmentsDir, Part000.all2 in Hrun.
    unfold_m. rewrite Hf, Hu in Hrun. simpl in Hrun.
    rewrite <- both_stats_pair in Hp.
    repeat (case_match; simplify_eq/=); try done.
    match goal with H : negb ?b = false |- _ => destruct b; [| done] end.
    eexists _, _, _, _, _, _; split_and!; first [eassumption | reflexivity].
Qed.

(** A branch that a faultless environment rules out. *)
Ltac faultless_contra :=
  match goal with
  | Hwr : forall p, env_write_error ?e p = None, H : env_write_error ?e ?p = Some _ |- _ =>
      rewrite Hwr in H; discriminate
  | Hld : forall d m, env_load ?e d <> inl m, H : env_load ?e ?d = inl ?m |- _ =>
      exact (False_rect _ (Hld d m H))
  | Hex : forall h m, env_export ?e h <> inl m, H : env_export ?e ?h = inl ?m |- _ =>
      exact (False_rect _ (Hex h m H))
  | Hpr : forall h m, env_properties ?e h <> inl m, H : env_properties ?e ?h = inl ?m |- _ =>
      exact (False_rect _ (Hpr h m H))
  | Hst : forall h m, env_stringify ?e h <> inl m, H : env_stringify ?e ?h = inl ?m |- _ =>
      exact (False_rect _ (Hst h m H))
  | Hfe : forall u, fetch_failure_message (env_fetch ?e u) = None,
    H : env_fetch ?e ?u = _ |- _ =>
      let Hu := fresh "Hu" in
      pose proof (Hfe u) as Hu; rewrite H in Hu; simpl in Hu;
      repeat case_match; simplify_eq/=; done
  | _ => congruence
  end.

(** X3. When the pair is not cached and the IFC engine rejects the model
    (initialisation, [load], [export] or [getLocalProperties] throws),
    Convert leaves the files and the directory as they were and answers
    HTTP 500: [server.js] with its fixed message, [part_000] with
    ["Server error during IFC conversion: "] and the error's message. *)
Theorem engine_failure_writes_nothing :
  (forall getFileHash req e w ifcData,
     ~ pair_present w (getFileHash (params_filename req)) ->
     req_file req "ifcFile" = Some ifcData ->
     engine_fails e ifcData ->
     let '(w', r) := run (Server.convert_ifc getFileHash req) e w in
     disk w' = disk w /\ dir_exists w' = dir_exists w /\
     r = res_error 500 "Server error during IFC conversion") /\
  (forall req e w filename ifcUrl statusText ifcData,
     body_filename req = Some filename -> body_ifcUrl req = Some ifcUrl ->
     filename <> "" -> ifcUrl <> "" ->
     ~ pair_present w filename ->
     env_fetch e ifcUrl = FetchResponse true statusText ifcData ->
     engine_fails e ifcData ->
     let '(w', r) := run (Part000.convert_ifc req) e w in
     disk w' = disk w /\ dir_exists w' = dir_exists w /\
     exists message, r = res_error 500 ("Server error during IFC conversion: " ++ message)%string).
Proof.
  split.
  - intros h req e w d Hp Hd Hfail.
    unfold run, Server.convert_ifc. unfold_m. simpl.
    rewrite <- both_stats_pair in Hp. destruct (_ && _); [done |].
    rewrite Hd. simpl.
    destruct Hfail as [[m Hi] | [[m Hl] | (model & m & Hl & [Hx | (f & Hx & Hpr)])]].
    + rewrite Hi. done.
    + destruct (env_init_error e); simpl; [done |]. rewrite Hl. done.
    + destruct (env_init_error e); simpl; [done |]. rewrite Hl. simpl. rewrite Hx. done.
    + destruct (env_init_error e); simpl; [done |]. rewrite Hl. simpl. rewrite Hx. simpl.
      rewrite Hpr. done.
  - intros req e w filename ifcUrl st d Hf Hu Hf0 Hu0 Hp Hfetch Hfail.
    unfold run, Part000.convert_ifc, Part000.getFilePaths, Part000.checkFilesExist,
      Part000.fetchIfcFile.
    unfold_m. rewrite Hf, Hu. unfold truthy.
    apply String.eqb_neq in Hf0, Hu0. rewrite Hf0, Hu0. simpl.
    rewrite <- both_stats_pair in Hp. destruct (_ && _); [done |]. simpl.
    rewrite Hfetch. simpl.
    destruct Hfail as [[m Hi] | [[m Hl] | (model & m & Hl & [Hx | (f & Hx & Hpr)])]].
    + rewrite Hi. eauto.
    + destruct (env_init_error e); simpl; [eauto |]. rewrite Hl. eauto.
    + destruct (env_init_error e); simpl; [eauto |]. rewrite Hl. simpl. rewrite Hx. eauto.
    + destruct (env_init_error e); simpl; [eauto |]. rewrite Hl. simpl. rewrite Hx. simpl.
      rewrite Hpr. eauto.
Qed.

(** X4. When [JSON.stringify(properties)] throws after a successful
    export, Convert has already written the fragment file: the disk gains
    [{key}.frag] with the exported bytes and nothing else, and the answer
    is HTTP 500. When [{key}.json] was absent, a later Check reports the
    pair absent. *)
Theorem stringify_failure_leaves_frag :
  (forall getFileHash req e e' w ifcData model fragData props message,
     let key := getFileHash (params_filename req) in
     ~ pair_present w key ->
     req_file req "ifcFile" = Some ifcData ->
     env_init_error e = None -> env_load e ifcData = inr model ->
     env_export e model = inr fragData -> env_properties e model = inr props ->
     env_mkdir_error e = None -> env_write_error e (frag_name key) = None ->
     env_stringify e props = inl message ->
     let '(w', r) := run (Server.convert_ifc getFileHash req) e w in
     disk w' = <[frag_name key := fragData]> (disk w) /\
     r = res_error 500 "Server error during IFC conversion" /\
     (disk w !! json_name key = None ->
        snd (run (Server.get_fragments getFileHash req) e' w') = res_not_found)) /\
  (forall req req' e e' w filename ifcUrl statusText ifcData model fragData props message,
     body_filename req = Some filename -> body_ifcUrl req = Some ifcUrl ->
     filename <> "" -> ifcUrl <> "" ->
     ~ pair_present w filename ->
     env_fetch e ifcUrl = FetchResponse true statusText ifcData ->
     env_init_error e = None -> env_load e ifcData = inr model ->
     env_export e model = inr fragData -> env_properties e model = inr props ->
     env_mkdir_error e = None -> env_write_error e (frag_name filename) = None ->
     env_stringify e props = inl message ->
     params_filename req' = filename ->
     let '(w', r) := run (Part000.convert_ifc req) e w in
     disk w' = <[frag_name filename := fragData]> (disk w) /\
     r = res_error 500 ("Server error during IFC conversion: " ++ message)%string /\
     (disk w !! json_name filename = None ->
        snd (run (Part000.get_fragments req') e' w') = res_not_found)).
Proof.
  split.
  - intros h req e e' w d model f p m. cbv zeta.
    intros Hp Hd Hi Hl Hx Hpr Hmk Hw Hst.
    destruct (run (Server.convert_ifc h req) e w) as [w' r] eqn:Hrun.
    unfold run, Server.convert_ifc, Server.ensureFragmentsDir in Hrun. unfold_m. simpl in Hrun.
    rewrite <- both_stats_pair in Hp. destruct (_ && _); [done |].
    rewrite Hd in Hrun. simpl in Hrun. rewrite Hi in Hrun. simpl in Hrun.
    rewrite Hl in Hrun. simpl in Hrun. rewrite Hx in Hrun. simpl in Hrun.
    rewrite Hpr in Hrun. simpl in Hrun. rewrite Hmk in Hrun. simpl in Hrun.
    rewrite Hw in Hrun. simpl in Hrun. rewrite Hst in Hrun. simpl in Hrun.
    simplify_eq/=. split_and!; [done | done |].
    intros Hj. unfold run. rewrite Server_get_fragments_run. simpl.
    rewrite (lookup_insert_ne (disk w) (frag_name (h (params_filename req))) (json_name (h (params_filename req))))
      by apply frag_json_names_differ.
    rewrite Hj.
    by destruct (bool_decide _).
  - intros req req' e e' w filename ifcUrl st d model f p m.
    intros Hf Hu Hf0 Hu0 Hp Hfetch Hi Hl Hx Hpr Hmk Hw Hst Hname. subst filename.
    destruct (run (Part000.convert_ifc req) e w) as [w' r] eqn:Hrun.
    unfold run, Part000.convert_ifc, Part000.getFilePaths, Part000.checkFilesExist,
      Part000.fetchIfcFile, Part000.ensureFragmentsDir in Hrun.
    unfold_m. rewrite Hf, Hu in Hrun. unfold truthy in Hrun.
    apply String.eqb_neq in Hf0, Hu0. rewrite Hf0, Hu0 in Hrun. simpl in Hrun.
    rewrite <- both_stats_pair in Hp. destruct (_ && _); [done |].
    rewrite Hfetch in Hrun. simpl in Hrun. rewrite Hi in Hrun. simpl in Hrun.
    rewrite Hl in Hrun. simpl in Hrun. rewrite Hx in Hrun. simpl in Hrun.
    rewrite Hpr in Hrun. simpl in Hrun. rewrite Hmk in Hrun. simpl in Hrun.
    rewrite Hw in Hrun. simpl in Hrun. rewrite Hst in Hrun. simpl in Hrun.
    simplify_eq/=. split_and!; [done | done |].
    intros Hj. unfold run. rewrite Part000_get_fragments_run. simpl.
    rewrite (lookup_insert_ne (disk w) (frag_name (params_filename req'))
               (json_name (params_filename req'))) by apply frag_json_names_differ.
    rewrite Hj.
    by destruct (bool_decide _).
Qed.

(** X5. In a [faultless] environment, a Convert whose input is present
    always answers [success: true] with the URLs of its key and leaves the
    pair of that key on disk. When the pair was not cached, its calls are,
    in order: the two stats, (in [part_000]) the download, the engine's
    initialisation, [load], [export] and [getLocalProperties], [mkdir],
    the [.frag] and [.json] writes, and the two disposals. *)
Theorem convert_succeeds_when_faultless :
  (forall getFileHash req e w ifcData,
     faultless e -> req_file req "ifcFile" = Some ifcData ->
     let key := getFileHash (params_filename req) in
     let '(w', r) := run (Server.convert_ifc getFileHash req) e w in
     r = res_urls (frag_url key) (json_url key) /\ pair_present w' key /\
     (~ pair_present w key ->
        trace w' = [EvDisposeComponents; EvDisposeFragments; EvWrite (json_name key);
                    EvWrite (frag_name key); EvMkdir; EvProps; EvExport; EvLoad; EvInit;
                    EvStat (json_name key); EvStat (frag_name key)] ++ trace w)) /\
  (forall req e w filename ifcUrl,
     faultless e ->
     body_filename req = Some filename -> body_ifcUrl req = Some ifcUrl ->
     filename <> "" -> ifcUrl <> "" ->
     let '(w', r) := run (Part000.convert_ifc req) e w in
     r = res_urls (frag_url filename) (json_url filename) /\ pair_present w' filename /\
     (~ pair_present w filename ->
        trace w' = [EvDisposeComponents; EvDisposeFragments; EvWrite (json_name filename);
                    EvWrite (frag_name filename); EvMkdir; EvProps; EvExport; EvLoad; EvInit;
                    EvFetch ifcUrl; EvStat (json_name filename); EvStat (frag_name filename)]
                   ++ trace w)).
Proof.
  split.
  - intros h req e w d Hf Hd. cbv zeta.
    destruct Hf as (Hmk & Hwr & Hin & Hld & Hex & Hpr & Hst & Hfe).
    unfold run, Server.convert_ifc, Server.ensureFragmentsDir. unfold_m. simpl.
    destruct (_ && _) eqn:Hc.
    + apply both_stats_pair in Hc. simpl. done.
    + rewrite Hd. simpl.
      repeat (case_match; simplify_eq/=); try faultless_contra.
      split_and!; [done | apply pair_present_two_writes | done].
  - intros req e w filename ifcUrl Hf Hfn Hu Hf0 Hu0.
    destruct Hf as (Hmk & Hwr & Hin & Hld & Hex & Hpr & Hst & Hfe).
    unfold run, Part000.convert_ifc, Part000.getFilePaths, Part000.checkFilesExist,
      Part000.fetchIfcFile, Part000.ensureFragmentsDir, Part000.all2.
    unfold_m. rewrite Hfn, Hu. unfold truthy.
    apply String.eqb_neq in Hf0, Hu0. rewrite Hf0, Hu0. simpl.
    destruct (_ && _) eqn:Hc.
    + apply both_stats_pair in Hc. simpl. done.
    + simpl. repeat (case_match; simplify_eq/=); try faultless_contra.
      split_and!; [done | apply pair_present_two_writes | done].
Qed.

(** X6. A JSON Convert of [part_000] whose body lacks a non-empty
    [filename] or [ifcUrl] answers HTTP 400 before any call to the outside
    world: the world, its trace included, is returned unchanged. *)
Theorem json_convert_missing_field_untouched req e w :
  truthy (body_filename req) && truthy (body_ifcUrl req) = false ->
  run (Part000.convert_ifc req) e w = (w, res_error 400 "Missing filename or IFC URL").
Proof.
  intros Hmiss. unfold run, Part000.convert_ifc. unfold_m. unfold truthy in *.
  destruct (body_filename req) as [f|]; destruct (body_ifcUrl req) as [u|]; simpl in *;
    try done.
  destruct (String.eqb f ""), (String.eqb u ""); simpl in *; done.
Qed.

(** X7. When [fs.mkdir] fails, the Upload routes differ. [server.js]
    swallows the error: the Upload still stores both files and succeeds
    when the directory exists, and answers 500 with the disk unchanged when
    it does not (the first write fails). [part_000] answers 500 right
    away, after the [mkdir] call alone. *)
Theorem mkdir_failure_upload :
  (forall getFileHash req e w fragData jsonData message,
     let key := getFileHash (params_filename req) in
     req_file req "fragFile" = Some fragData -> req_file req "jsonFile" = Some jsonData ->
     env_mkdir_error e = Some message ->
     let '(w', r) := run (Server.post_fragments getFileHash req) e w in
     (dir_exists w = true ->
        env_write_error e (frag_name key) = None -> env_write_error e (json_name key) = None ->
        r = res_urls (frag_url key) (json_url key) /\
        disk w' = <[json_name key := jsonData]> (<[frag_name key := fragData]> (disk w))) /\
     (dir_exists w = false ->
        r = res_error 500 "Server error" /\ disk w' = disk w /\ dir_exists w' = false)) /\
  (forall req e w fragData jsonData message,
     req_file req "fragFile" = Some fragData -> req_file req "jsonFile" = Some jsonData ->
     env_mkdir_error e = Some message ->
     run (Part000.post_fragments req) e w = (log EvMkdir w, res_error 500 "Server error")).
Proof.
  split.
  - intros h req e w f j m. cbv zeta. intros Hf Hj Hmk.
    destruct (run (Server.post_fragments h req) e w) as [w' r] eqn:Hrun.
    unfold run, Server.post_fragments, Server.ensureFragmentsDir in Hrun. unfold_m.
    simpl in Hrun. rewrite Hf, Hj in Hrun. simpl in Hrun. rewrite Hmk in Hrun. simpl in Hrun.
    split.
    + intros Hd Hw1 Hw2. rewrite Hd in Hrun. simpl in Hrun.
      rewrite Hw1 in Hrun. simpl in Hrun. rewrite Hw2 in Hrun. simplify_eq/=. done.
    + intros Hd. rewrite Hd in Hrun. simplify_eq/=. done.
  - intros req e w f j m Hf Hj Hmk.
    unfold run, Part000.post_fragments, Part000.ensureFragmentsDir. unfold_m. simpl.
    rewrite Hf, Hj. simpl. rewrite Hmk. done.
Qed.

(** X8. When writing the fragment file of an Upload fails, [server.js]
    stops there: the properties file is not attempted and the disk is
    unchanged. [part_000] starts both writes under [Promise.all], so it
    still writes the properties file. Both answer 500. *)
Theorem upload_first_write_failure :
  (forall getFileHash req e w fragData jsonData message,
     let key := getFileHash (params_filename req) in
     req_file req "fragFile" = Some fragData -> req_file req "jsonFile" = Some jsonData ->
     env_mkdir_error e = None -> env_write_error e (frag_name key) = Some message ->
     run (Server.post_fragments getFileHash req) e w =
       (mkWorld (disk w) true (EvWrite (frag_name key) :: EvMkdir :: trace w),
        res_error 500 "Server error")) /\
  (forall req e w fragData jsonData message,
     let key := params_filename req in
     req_file req "fragFile" = Some fragData -> req_file req "jsonFile" = Some jsonData ->
     env_mkdir_error e = None -> env_write_error e (frag_name key) = Some message ->
     env_write_error e (json_name key) = None ->
     run (Part000.post_fragments req) e w =
       (mkWorld (<[json_name key := jsonData]> (disk w)) true
          (EvWrite (json_name key) :: EvWrite (frag_name key) :: EvMkdir :: trace w),
        res_error 500 "Server error")).
Proof.
  split.
  - intros h req e w f j m. cbv zeta. intros Hf Hj Hmk Hw.
    unfold run, Server.post_fragments, Server.ensureFragmentsDir. unfold_m. simpl.
    rewrite Hf, Hj. simpl. rewrite Hmk. simpl. rewrite Hw. done.
  - intros req e w f j m. cbv zeta. intros Hf Hj Hmk Hw1 Hw2.
    unfold run, Part000.post_fragments, Part000.getFilePaths, Part000.ensureFragmentsDir,
      Part000.all2.
    unfold_m. simpl.
    rewrite Hf, Hj. simpl. rewrite Hmk. simpl. rewrite Hw1. simpl. rewrite Hw2. done.
Qed.

(** X9. An Upload over an existing pair whose properties write fails
    replaces the fragment file and keeps the old properties file. It
    answers 500, yet a following Check reports the (mixed) pair present,
    in both servers. *)
Theorem upload_second_write_failure_mixed_pair :
  (forall getFileHash req e e' w fragData jsonData message,
     let key := getFileHash (params_filename req) in
     pair_present w key ->
     req_file req "fragFile" = Some fragData -> req_file req "jsonFile" = Some jsonData ->
     env_mkdir_error e = None -> env_write_error e (frag_name key) = None ->
     env_write_error e (json_name key) = Some message ->
     let '(w', r) := run (Server.post_fragments getFileHash req) e w in
     r = res_error 500 "Server error" /\
     disk w' = <[frag_name key := fragData]> (disk w) /\
     snd (run (Server.get_fragments getFileHash req) e' w') =
       res_urls (frag_url key) (json_url key)) /\
  (forall req e e' w fragData jsonData message,
     let key := params_filename req in
     pair_present w key ->
     req_file req "fragFile" = Some fragData -> req_file req "jsonFile" = Some jsonData ->
     env_mkdir_error e = None -> env_write_error e (frag_name key) = None ->
     env_write_error e (json_name key) = Some message ->
     let '(w', r) := run (Part000.post_fragments req) e w in
     r = res_error 500 "Server error" /\
     disk w' = <[frag_name key := fragData]> (disk w) /\
     snd (run (Part000.get_fragments req) e' w') = res_urls (frag_url key) (json_url key)).
Proof.
  split.
  - intros h req e e' w f j m. cbv zeta. intros Hp Hf Hj Hmk Hw1 Hw2.
    destruct (run (Server.post_fragments h req) e w) as [w' r] eqn:Hrun.
    unfold run, Server.post_fragments, Server.ensureFragmentsDir in Hrun. unfold_m.
    simpl in Hrun. rewrite Hf, Hj in Hrun. simpl in Hrun. rewrite Hmk in Hrun. simpl in Hrun.
    rewrite Hw1 in Hrun. simpl in Hrun. rewrite Hw2 in Hrun. simpl in Hrun.
    simplify_eq/=. split_and!; [done | done |].
    unfold run. rewrite Server_get_fragments_run. simpl.
    destruct Hp as [_ [x Hx]].
    rewrite lookup_insert_eq.
    rewrite (lookup_insert_ne (disk w) (frag_name (h (params_filename req)))
               (json_name (h (params_filename req)))) by apply frag_json_names_differ.
    rewrite Hx. done.
  - intros req e e' w f j m. cbv zeta. intros Hp Hf Hj Hmk Hw1 Hw2.
    destruct (run (Part000.post_fragments req) e w) as [w' r] eqn:Hrun.
    unfold run, Part000.post_fragments, Part000.getFilePaths, Part000.ensureFragmentsDir,
      Part000.all2 in Hrun.
    unfold_m. simpl in Hrun.
    rewrite Hf, Hj in Hrun. simpl in Hrun. rewrite Hmk in Hrun. simpl in Hrun.
    rewrite Hw1 in Hrun. simpl in Hrun. rewrite Hw2 in Hrun. simpl in Hrun.
    simplify_eq/=. split_and!; [done | done |].
    unfold run. rewrite Part000_get_fragments_run. simpl.
    destruct Hp as [_ [x Hx]].
    rewrite lookup_insert_eq.
    rewrite (lookup_insert_ne (disk w) (frag_name (params_filename req))
               (json_name (params_filename req))) by apply frag_json_names_differ.
    rewrite Hx. done.
Qed.

Ltac keeps_tac :=
  repeat (case_match; simplify_eq/=);
  (unfold keeps_files; simpl; split;
   [ intros ?p ?Hp; rewrite ?lookup_insert_is_Some'; naive_solver
   | intros ?Hd; done ]).

(** X10. No route of either server removes a file or the directory:
    every file on disk before a request is still there after it, and an
    existing directory still exists, whatever the request and the
    environment. *)
Theorem no_route_deletes :
  (forall getFileHash req e w,
     keeps_files w (fst (run (Server.get_fragments getFileHash req) e w)) /\
     keeps_files w (fst (run (Server.post_fragments getFileHash req) e w)) /\
     keeps_files w (fst (run (Server.convert_ifc getFileHash req) e w))) /\
  (forall req e w,
     keeps_files w (fst (run (Part000.get_fragments req) e w)) /\
     keeps_files w (fst (run (Part000.post_fragments req) e w)) /\
     keeps_files w (fst (run (Part000.convert_ifc req) e w))).
Proof.
  split.
  - intros h req e w. split_and!.
    + unfold run, Server.get_fragments. unfold_m. simpl. keeps_tac.
    + unfold run, Server.post_fragments, Server.ensureFragmentsDir. unfold_m. simpl.
      keeps_tac.
    + unfold run, Server.convert_ifc, Server.ensureFragmentsDir. unfold_m. simpl.
      keeps_tac.
  - intros req e w. split_and!.
    + unfold run, Part000.get_fragments, Part000.getFilePaths, Part000.checkFilesExist.
      unfold_m. simpl. keeps_tac.
    + unfold run, Part000.post_fragments, Part000.getFilePaths,
        Part000.ensureFragmentsDir, Part000.all2.
      unfold_m. simpl. keeps_tac.
    + unfold run, Part000.convert_ifc, Part000.getFilePaths, Part000.checkFilesExist,
        Part000.fetchIfcFile, Part000.ensureFragmentsDir, Part000.all2.
      unfold_m. simpl. keeps_tac.
Qed.

(** A successful Upload leaves the pair of its key on disk. *)
Lemma Server_post_success_pair getFileHash req e w w1 r1 :
  Server.post_fragments getFileHash req e w = (w1, inr r1) ->
  success r1 = true ->
  pair_present w1 (getFileHash (params_filename req)) /\
  r1 = res_urls (frag_url (getFileHash (params_filename req)))
                (json_url (getFileHash (params_filename req))).
Proof.
  intros Hrun Hs.
  unfold Server.post_fragments, Server.ensureFragmentsDir in Hrun. unfold_m. simpl in Hrun.
  repeat (case_match; simplify_eq/=); try done.
  all: split; [apply pair_present_two_writes | done].
Qed.

(** A successful Upload leaves the pair of its key on disk. *)
Lemma Part000_post_success_pair req e w w1 r1 :
  Part000.post_fragments req e w = (w1, inr r1) ->
  success r1 = true ->
  pair_present w1 (params_filename req) /\
  r1 = res_urls (frag_url (params_filename req)) (json_url (params_filename req)).
Proof.
  intros Hrun Hs.
  unfold Part000.post_fragments, Part000.getFilePaths, Part000.ensureFragmentsDir,
    Part000.all2 in Hrun.
  unfold_m. simpl in Hrun.
  repeat (case_match; simplify_eq/=); try done.
  all: split; [apply pair_present_two_writes | done].
Qed.

(** X11. After a successful Upload, a Convert for the same name is a
    cache hit: it answers the Upload's response after the two stats alone,
    whatever its input and its environment. For the JSON Convert of
    [part_000], this holds for a body whose [filename] is the uploaded
    name and whose [ifcUrl] is non-empty. *)
Theorem upload_then_convert_cached :
  (forall getFileHash req req' e e' w w1 r1,
     run (Server.post_fragments getFileHash req) e w = (w1, r1) ->
     success r1 = true ->
     params_filename req' = params_filename req ->
     let key := getFileHash (params_filename req) in
     run (Server.convert_ifc getFileHash req') e' w1 =
       (log (EvStat (json_name key)) (log (EvStat (frag_name key)) w1), r1)) /\
  (forall req req' e e' w w1 r1 ifcUrl,
     run (Part000.post_fragments req) e w = (w1, r1) ->
     success r1 = true ->
     body_filename req' = Some (params_filename req) -> body_ifcUrl req' = Some ifcUrl ->
     params_filename req <> "" -> ifcUrl <> "" ->
     let key := params_filename req in
     run (Part000.convert_ifc req') e' w1 =
       (log (EvStat (json_name key)) (log (EvStat (frag_name key)) w1), r1)).
Proof.
  split.
  - intros h req req' e e' w w1 r1 Hrun Hs Hname. cbv zeta.
    apply run_total in Hrun; [| apply Server_handlers_total].
    destruct (Server_post_success_pair _ _ _ _ _ _ Hrun Hs) as [Hp ->].
    apply run_inr. rewrite <- Hname in Hp |- *. by apply Server_convert_cached.
  - intros req req' e e' w w1 r1 u Hrun Hs Hf Hu Hf0 Hu0. cbv zeta.
    apply run_total in Hrun; [| apply Part000_handlers_total].
    destruct (Part000_post_success_pair _ _ _ _ _ Hrun Hs) as [Hp ->].
    apply run_inr. by eapply Part000_convert_cached.
Qed.

(** ** Strings *)










(** ** Facts about the concrete inputs *)

Lemma empty_world_no_pair key : ~ pair_present empty_world key.
Proof. unfold pair_present. simpl. rewrite lookup_empty. intros [[? ?] _]. discriminate. Qed.

Lemma ok_env_faultless : faultless ok_env.
Proof. unfold faultless. split_and!; try reflexivity; intros; simpl; discriminate. Qed.

Lemma cached_world_pair key : pair_present (cached_world key) key.
Proof.
  unfold pair_present, cached_world. simpl.
  destruct (lookup_two_writes ∅ key [Byte.x01] [Byte.x7b]) as [-> ->]. done.
Qed.

(** * Witnesses *)

Lemma convert_cache_hit_idempotent_witness :
  let req := ifc_upload_req "m" [Byte.x49] in
  let R1 := run (Server.convert_ifc demo_hash req) ok_env empty_world in
  success (snd R1) = true /\
  run (Server.convert_ifc demo_hash req) (load_error_env "invalid IFC") (fst R1) =
    (log (EvStat (json_name "hm")) (log (EvStat (frag_name "hm")) (fst R1)), snd R1).
Proof.
  cbv zeta. split; [reflexivity |].
  apply (proj1 (proj2 convert_cache_hit_idempotent) demo_hash (ifc_upload_req "m" [Byte.x49])
           ok_env (load_error_env "invalid IFC") empty_world);
    [apply surjective_pairing | reflexivity].
Defined.

Lemma upload_then_check_witness :
  let req := upload_req "m" [Byte.x01] [Byte.x02] in
  let R1 := run (Server.post_fragments demo_hash req) ok_env empty_world in
  success (snd R1) = true /\
  exists fragData jsonData,
    req_file req "fragFile" = Some fragData /\ req_file req "jsonFile" = Some jsonData /\
    disk (fst R1) !! frag_name "hm" = Some fragData /\
    disk (fst R1) !! json_name "hm" = Some jsonData /\
    snd R1 = res_urls (frag_url "hm") (json_url "hm") /\
    snd (run (Server.get_fragments demo_hash (check_req "m")) ok_env (fst R1)) = snd R1.
Proof.
  cbv zeta. split; [reflexivity |].
  apply (proj1 upload_then_check demo_hash (upload_req "m" [Byte.x01] [Byte.x02])
           (check_req "m") ok_env empty_world);
    [apply surjective_pairing | reflexivity | reflexivity].
Defined.

Lemma same_key_all_endpoints_witness :
  addresses "hm" empty_world
    (run (Server.post_fragments demo_hash (upload_req "m" [Byte.x01] [Byte.x02])) ok_env empty_world) /\
  addresses "model-a" empty_world
    (run (Part000.convert_ifc (url_req "model-a" "https://s3/a.ifc")) ok_env empty_world).
Proof.
  split.
  - apply (proj1 same_key_all_endpoints demo_hash "m" (upload_req "m" [Byte.x01] [Byte.x02])
             ok_env empty_world eq_refl).
  - apply (proj2 same_key_all_endpoints "model-a" (check_req "model-a")
             (url_req "model-a" "https://s3/a.ifc") ok_env empty_world eq_refl eq_refl).
Defined.

Lemma convert_then_check_witness :
  let R1 := run (Server.convert_ifc demo_hash (ifc_upload_req "m" [Byte.x49])) ok_env empty_world in
  let R2 := run (Part000.convert_ifc (url_req "model-a" "https://s3/a.ifc")) ok_env empty_world in
  success (snd R1) = true /\
  snd (run (Server.get_fragments demo_hash (check_req "m")) ok_env (fst R1)) = snd R1 /\
  success (snd R2) = true /\
  snd (run (Part000.get_fragments (check_req "model-a")) ok_env (fst R2)) = snd R2.
Proof.
  cbv zeta. split_and!; [reflexivity | | reflexivity |].
  - apply (proj1 convert_then_check demo_hash (ifc_upload_req "m" [Byte.x49]) (check_req "m")
             ok_env ok_env empty_world);
      [apply surjective_pairing | reflexivity | reflexivity].
  - apply (proj2 convert_then_check (url_req "model-a" "https://s3/a.ifc") (check_req "model-a")
             ok_env ok_env empty_world _ _ "model-a");
      [apply surjective_pairing | reflexivity | reflexivity | reflexivity].
Defined.

Lemma convert_stores_engine_output_witness :
  let R1 := run (Server.convert_ifc demo_hash (ifc_upload_req "m" [Byte.x49])) ok_env empty_world in
  let R2 := run (Part000.convert_ifc (url_req "model-a" "https://s3/a.ifc")) ok_env empty_world in
  success (snd R1) = true /\ success (snd R2) = true /\
  (exists ifcData model fragData props propsJson,
     req_file (ifc_upload_req "m" [Byte.x49]) "ifcFile" = Some ifcData /\
     env_load ok_env ifcData = inr model /\
     env_export ok_env model = inr fragData /\ env_properties ok_env model = inr props /\
     env_stringify ok_env props = inr propsJson /\
     disk (fst R1) = <[json_name "hm" := propsJson]> (<[frag_name "hm" := fragData]> (disk empty_world))) /\
  (exists statusText ifcData model fragData props propsJson,
     env_fetch ok_env "https://s3/a.ifc" = FetchResponse true statusText ifcData /\
     env_load ok_env ifcData = inr model /\
     env_export ok_env model = inr fragData /\ env_properties ok_env model = inr props /\
     env_stringify ok_env props = inr propsJson /\
     disk (fst R2) = <[json_name "model-a" := propsJson]>
                       (<[frag_name "model-a" := fragData]> (disk empty_world))).
Proof.
  cbv zeta. split_and!; [reflexivity | reflexivity | |].
  - eapply (proj1 convert_stores_engine_output demo_hash (ifc_upload_req "m" [Byte.x49])
             ok_env empty_world);
      [apply empty_world_no_pair | apply surjective_pairing | reflexivity].
  - eapply (proj2 convert_stores_engine_output (url_req "model-a" "https://s3/a.ifc")
             ok_env empty_world _ _ "model-a" "https://s3/a.ifc");
      [reflexivity | reflexivity | apply empty_world_no_pair | apply surjective_pairing
      | reflexivity].
Defined.

Lemma engine_failure_writes_nothing_witness :
  engine_fails (load_error_env "invalid IFC") [Byte.x49] /\
  (let '(w', r) := run (Server.convert_ifc demo_hash (ifc_upload_req "m" [Byte.x49]))
                     (load_error_env "invalid IFC") empty_world in
   disk w' = disk empty_world /\ dir_exists w' = dir_exists empty_world /\
   r = res_error 500 "Server error during IFC conversion") /\
  (let '(w', r) := run (Part000.convert_ifc (url_req "model-a" "https://s3/a.ifc"))
                     (load_error_env "invalid IFC") empty_world in
   disk w' = disk empty_world /\ dir_exists w' = dir_exists empty_world /\
   exists message, r = res_error 500 ("Server error during IFC conversion: " ++ message)%string).
Proof.
  assert (Hf : forall d, engine_fails (load_error_env "invalid IFC") d)
    by (intros d; right; left; exists "invalid IFC"; reflexivity).
  split_and!; [apply Hf | |].
  - apply (proj1 engine_failure_writes_nothing demo_hash (ifc_upload_req "m" [Byte.x49])
             (load_error_env "invalid IFC") empty_world [Byte.x49]);
      [apply empty_world_no_pair | reflexivity | apply Hf].
  - apply (proj2 engine_failure_writes_nothing (url_req "model-a" "https://s3/a.ifc")
             (load_error_env "invalid IFC") empty_world "model-a" "https://s3/a.ifc" "OK"
             [Byte.x49; Byte.x46; Byte.x43]);
      [reflexivity | reflexivity | discriminate | discriminate | apply empty_world_no_pair
      | reflexivity | apply Hf].
Defined.

Lemma stringify_failure_leaves_frag_witness :
  (let '(w', r) := run (Server.convert_ifc demo_hash (ifc_upload_req "m" [Byte.x49]))
                     (stringify_error_env "cyclic") empty_world in
   disk w' = <[frag_name "hm" := [Byte.x46; Byte.x52; Byte.x41; Byte.x47]]> (disk empty_world) /\
   r = res_error 500 "Server error during IFC conversion" /\
   (disk empty_world !! json_name "hm" = None ->
      snd (run (Server.get_fragments demo_hash (ifc_upload_req "m" [Byte.x49])) ok_env w') =
        res_not_found)) /\
  (let '(w', r) := run (Part000.convert_ifc (url_req "model-a" "https://s3/a.ifc"))
                     (stringify_error_env "cyclic") empty_world in
   disk w' = <[frag_name "model-a" := [Byte.x46; Byte.x52; Byte.x41; Byte.x47]]>
               (disk empty_world) /\
   r = res_error 500 ("Server error during IFC conversion: " ++ "cyclic")%string /\
   (disk empty_world !! json_name "model-a" = None ->
      snd (run (Part000.get_fragments (check_req "model-a")) ok_env w') = res_not_found)).
Proof.
  split.
  - apply (proj1 stringify_failure_leaves_frag demo_hash (ifc_upload_req "m" [Byte.x49])
             (stringify_error_env "cyclic") ok_env empty_world [Byte.x49] 0%nat
             [Byte.x46; Byte.x52; Byte.x41; Byte.x47] 0%nat "cyclic");
      [apply empty_world_no_pair | reflexivity ..].
  - apply (proj2 stringify_failure_leaves_frag (url_req "model-a" "https://s3/a.ifc")
             (check_req "model-a") (stringify_error_env "cyclic") ok_env empty_world
             "model-a" "https://s3/a.ifc" "OK" [Byte.x49; Byte.x46; Byte.x43] 0%nat
             [Byte.x46; Byte.x52; Byte.x41; Byte.x47] 0%nat "cyclic");
      [reflexivity | reflexivity | discriminate | discriminate | apply empty_world_no_pair
      | reflexivity ..].
Defined.

Lemma convert_succeeds_when_faultless_witness :
  faultless ok_env /\
  (let '(w', r) := run (Server.convert_ifc demo_hash (ifc_upload_req "m" [Byte.x49])) ok_env empty_world in
   r = res_urls (frag_url "hm") (json_url "hm") /\ pair_present w' "hm" /\
   (~ pair_present empty_world "hm" ->
      trace w' = [EvDisposeComponents; EvDisposeFragments; EvWrite (json_name "hm");
                  EvWrite (frag_name "hm"); EvMkdir; EvProps; EvExport; EvLoad; EvInit;
                  EvStat (json_name "hm"); EvStat (frag_name "hm")] ++ trace empty_world)) /\
  (let '(w', r) := run (Part000.convert_ifc (url_req "model-a" "https://s3/a.ifc")) ok_env empty_world in
   r = res_urls (frag_url "model-a") (json_url "model-a") /\ pair_present w' "model-a" /\
   (~ pair_present empty_world "model-a" ->
      trace w' = [EvDisposeComponents; EvDisposeFragments; EvWrite (json_name "model-a");
                  EvWrite (frag_name "model-a"); EvMkdir; EvProps; EvExport; EvLoad; EvInit;
                  EvFetch "https://s3/a.ifc"; EvStat (json_name "model-a");
                  EvStat (frag_name "model-a")] ++ trace empty_world)).
Proof.
  split_and!; [apply ok_env_faultless | |].
  - apply (proj1 convert_succeeds_when_faultless demo_hash (ifc_upload_req "m" [Byte.x49])
             ok_env empty_world [Byte.x49]); [apply ok_env_faultless | reflexivity].
  - apply (proj2 convert_succeeds_when_faultless (url_req "model-a" "https://s3/a.ifc")
             ok_env empty_world "model-a" "https://s3/a.ifc");
      [apply ok_env_faultless | reflexivity | reflexivity | discriminate | discriminate].
Defined.

Lemma json_convert_missing_field_untouched_witness :
  truthy (body_filename (url_req "" "https://s3/a.ifc"))
    && truthy (body_ifcUrl (url_req "" "https://s3/a.ifc")) = false /\
  run (Part000.convert_ifc (url_req "" "https://s3/a.ifc")) ok_env empty_world =
    (empty_world, res_error 400 "Missing filename or IFC URL").
Proof.
  split; [reflexivity |].
  apply json_convert_missing_field_untouched. reflexivity.
Defined.

Lemma mkdir_failure_upload_witness :
  (let '(w', r) := run (Server.post_fragments demo_hash (upload_req "m" [Byte.x01] [Byte.x02]))
                     (mkdir_error_env "EACCES") (cached_world "hm") in
   (dir_exists (cached_world "hm") = true ->
      env_write_error (mkdir_error_env "EACCES") (frag_name "hm") = None ->
      env_write_error (mkdir_error_env "EACCES") (json_name "hm") = None ->
      r = res_urls (frag_url "hm") (json_url "hm") /\
      disk w' = <[json_name "hm" := [Byte.x02]]> (<[frag_name "hm" := [Byte.x01]]>
                  (disk (cached_world "hm")))) /\
   (dir_exists (cached_world "hm") = false ->
      r = res_error 500 "Server error" /\ disk w' = disk (cached_world "hm") /\
      dir_exists w' = false)) /\
  run (Part000.post_fragments (upload_req "m" [Byte.x01] [Byte.x02])) (mkdir_error_env "EACCES")
    empty_world = (log EvMkdir empty_world, res_error 500 "Server error").
Proof.
  split.
  - apply (proj1 mkdir_failure_upload demo_hash (upload_req "m" [Byte.x01] [Byte.x02])
             (mkdir_error_env "EACCES") (cached_world "hm") [Byte.x01] [Byte.x02] "EACCES");
      reflexivity.
  - apply (proj2 mkdir_failure_upload (upload_req "m" [Byte.x01] [Byte.x02])
             (mkdir_error_env "EACCES") empty_world [Byte.x01] [Byte.x02] "EACCES");
      reflexivity.
Defined.

Lemma upload_first_write_failure_witness :
  run (Server.post_fragments demo_hash (upload_req "m" [Byte.x01] [Byte.x02]))
    (write_error_env "hm.frag" "EIO") empty_world =
    (mkWorld (disk empty_world) true (EvWrite (frag_name "hm") :: EvMkdir :: trace empty_world),
     res_error 500 "Server error") /\
  run (Part000.post_fragments (upload_req "m" [Byte.x01] [Byte.x02]))
    (write_error_env "m.frag" "EIO") empty_world =
    (mkWorld (<[json_name "m" := [Byte.x02]]> (disk empty_world)) true
       (EvWrite (json_name "m") :: EvWrite (frag_name "m") :: EvMkdir :: trace empty_world),
     res_error 500 "Server error").
Proof.
  split.
  - apply (proj1 upload_first_write_failure demo_hash (upload_req "m" [Byte.x01] [Byte.x02])
             (write_error_env "hm.frag" "EIO") empty_world [Byte.x01] [Byte.x02] "EIO");
      reflexivity.
  - apply (proj2 upload_first_write_failure (upload_req "m" [Byte.x01] [Byte.x02])
             (write_error_env "m.frag" "EIO") empty_world [Byte.x01] [Byte.x02] "EIO");
      reflexivity.
Defined.

Lemma upload_second_write_failure_mixed_pair_witness :
  (let '(w', r) := run (Server.post_fragments demo_hash (upload_req "m" [Byte.x01] [Byte.x02]))
                     (write_error_env "hm.json" "EIO") (cached_world "hm") in
   r = res_error 500 "Server error" /\
   disk w' = <[frag_name "hm" := [Byte.x01]]> (disk (cached_world "hm")) /\
   snd (run (Server.get_fragments demo_hash (upload_req "m" [Byte.x01] [Byte.x02])) ok_env w') =
     res_urls (frag_url "hm") (json_url "hm")) /\
  (let '(w', r) := run (Part000.post_fragments (upload_req "m" [Byte.x01] [Byte.x02]))
                     (write_error_env "m.json" "EIO") (cached_world "m") in
   r = res_error 500 "Server error" /\
   disk w' = <[frag_name "m" := [Byte.x01]]> (disk (cached_world "m")) /\
   snd (run (Part000.get_fragments (upload_req "m" [Byte.x01] [Byte.x02])) ok_env w') =
     res_urls (frag_url "m") (json_url "m")).
Proof.
  split.
  - apply (proj1 upload_second_write_failure_mixed_pair demo_hash
             (upload_req "m" [Byte.x01] [Byte.x02]) (write_error_env "hm.json" "EIO") ok_env
             (cached_world "hm") [Byte.x01] [Byte.x02] "EIO");
      [apply cached_world_pair | reflexivity ..].
  - apply (proj2 upload_second_write_failure_mixed_pair
             (upload_req "m" [Byte.x01] [Byte.x02]) (write_error_env "m.json" "EIO") ok_env
             (cached_world "m") [Byte.x01] [Byte.x02] "EIO");
      [apply cached_world_pair | reflexivity ..].
Defined.

Lemma upload_then_convert_cached_witness :
  let R1 := run (Server.post_fragments demo_hash (upload_req "m" [Byte.x01] [Byte.x02])) ok_env empty_world in
  let R2 := run (Part000.post_fragments (upload_req "model-a" [Byte.x01] [Byte.x02])) ok_env empty_world in
  success (snd R1) = true /\
  run (Server.convert_ifc demo_hash (ifc_upload_req "m" [Byte.x49])) (load_error_env "invalid IFC") (fst R1) =
    (log (EvStat (json_name "hm")) (log (EvStat (frag_name "hm")) (fst R1)), snd R1) /\
  success (snd R2) = true /\
  run (Part000.convert_ifc (url_req "model-a" "https://s3/a.ifc")) (net_error_env "fetch failed") (fst R2) =
    (log (EvStat (json_name "model-a")) (log (EvStat (frag_name "model-a")) (fst R2)), snd R2).
Proof.
  cbv zeta. split_and!; [reflexivity | | reflexivity |].
  - apply (proj1 upload_then_convert_cached demo_hash (upload_req "m" [Byte.x01] [Byte.x02])
             (ifc_upload_req "m" [Byte.x49]) ok_env (load_error_env "invalid IFC") empty_world);
      [apply surjective_pairing | reflexivity | reflexivity].
  - apply (proj2 upload_then_convert_cached (upload_req "model-a" [Byte.x01] [Byte.x02])
             (url_req "model-a" "https://s3/a.ifc") ok_env (net_error_env "fetch failed")
             empty_world _ _ "https://s3/a.ifc");
      [apply surjective_pairing | reflexivity | reflexivity | reflexivity | discriminate
      | discriminate].
Defined.

